(** * The Blender MCP add-on ([addon.py]): command server, dispatcher and handlers

    A shallow embedding of [BlenderMCPServer]: the lifecycle ([start], [stop]),
    the per-connection read loop ([_handle_client]), the dispatcher
    ([execute_command], [_execute_command_internal]) and the handlers whose
    bodies the properties below depend on.  Python values, exceptions and the
    [except] clauses are modelled explicitly; the Python standard library,
    [requests] and the Blender scene engine are collaborators gathered in the
    record [Host]. *)

From Stdlib Require Import ZArith String Ascii List Strings.Byte DecimalString.
From Stdlib Require Import Floats.SpecFloat Lia.
From stdpp Require Import gmap strings list.

Set Warnings "-register-all".
Open Scope string_scope.

(** ** Python values *)

(** A Python [float] is an IEEE 754 binary64 number. *)
Definition pyfloat : Type := spec_float.

(** The values that travel through the server: what [json.loads] produces
    ([None], [bool], [int], [float], [str], [list], [dict] with [str] keys, in
    insertion order), and [VObject] for any other Python object a handler may
    return (it has no JSON form). *)
Inductive value : Type :=
| VNone
| VBool (b : bool)
| VInt (n : Z)
| VFloat (x : pyfloat)
| VStr (s : string)
| VList (items : list value)
| VDict (entries : list (string * value))
| VObject (repr : string).

(** [type(v).__name__] *)
Definition type_name (v : value) : string :=
  match v with
  | VNone => "NoneType"
  | VBool _ => "bool"
  | VInt _ => "int"
  | VFloat _ => "float"
  | VStr _ => "str"
  | VList _ => "list"
  | VDict _ => "dict"
  | VObject _ => "object"
  end.

(** [d.get(key)] on the entries of a [dict] *)
Fixpoint dict_get (key : string) (entries : list (string * value)) : option value :=
  match entries with
  | [] => None
  | (k, v) :: rest => if String.eqb k key then Some v else dict_get key rest
  end.

(** [key in d] *)
Definition dict_has (key : string) (entries : list (string * value)) : bool :=
  match dict_get key entries with Some _ => true | None => false end.

(** [d[key] = v]: replaces the value of a present key in place, appends a new
    key at the end. *)
Fixpoint dict_set (key : string) (v : value) (entries : list (string * value))
  : list (string * value) :=
  match entries with
  | [] => [(key, v)]
  | (k, v0) :: rest =>
      if String.eqb k key then (k, v) :: rest else (k, v0) :: dict_set key v rest
  end.

(** Truth value of an object, as [if x:] and [not x] test it. *)
Definition truthy (v : value) : bool :=
  match v with
  | VNone => false
  | VBool b => b
  | VInt n => negb (Z.eqb n 0)
  | VFloat (S754_zero _) => false
  | VFloat _ => true
  | VStr s => negb (String.eqb s EmptyString)
  | VList items => match items with [] => false | _ => true end
  | VDict entries => match entries with [] => false | _ => true end
  | VObject _ => true
  end.

(** [v == s] for a [str] literal [s]: only a [str] equals a [str]. *)
Definition eq_str (v : value) (s : string) : bool :=
  match v with VStr t => String.eqb t s | _ => false end.

(** [v in [s1, s2, ...]] for a list of [str] literals *)
Definition in_strs (v : value) (choices : list string) : bool :=
  existsb (eq_str v) choices.

(** ** Exceptions *)

(** The exception classes the code meets.  [SystemExit], [KeyboardInterrupt]
    and [GeneratorExit] derive from [BaseException] only; every other class
    derives from [Exception]. *)
Inductive exc_class : Type :=
| Exception_
| TypeError
| ValueError
| KeyError
| AttributeError
| RecursionError
| UnicodeDecodeError
| JSONDecodeError
| OSError
| ConnectionError
| SystemExit
| KeyboardInterrupt
| GeneratorExit.

(** An exception object: its class and [str(e)]. *)
Record exn : Type := mk_exn { exc_type : exc_class; exc_str : string }.

(** [isinstance(e, Exception)]: what [except Exception as e] catches. *)
Definition isinstance_Exception (e : exn) : bool :=
  match exc_type e with
  | SystemExit | KeyboardInterrupt | GeneratorExit => false
  | _ => true
  end.

(** [isinstance(e, json.JSONDecodeError)]: what [except json.JSONDecodeError]
    catches.  [UnicodeDecodeError] is a [ValueError] too, but not a
    [JSONDecodeError]. *)
Definition isinstance_JSONDecodeError (e : exn) : bool :=
  match exc_type e with JSONDecodeError => true | _ => false end.

(** The outcome of a Python call: it returns or it raises. *)
Inductive result (A : Type) : Type :=
| Return (a : A)
| Raise (e : exn).
Arguments Return {A} a.
Arguments Raise {A} e.

(** ** The Blender data the handlers read and write *)

Record Modifier : Type := mk_Modifier {
  mod_name : string;
  mod_type : string;
  mod_props : list (string * value)
}.

Record Object : Type := mk_Object {
  obj_name : string;
  obj_type : string;
  obj_location : pyfloat * pyfloat * pyfloat;
  obj_modifiers : list Modifier
}.

(** [bpy.context.scene], with the add-on's properties declared by [register]. *)
Record Scene : Type := mk_Scene {
  scene_name : string;
  frame_current : Z;
  frame_start : Z;
  frame_end : Z;
  scene_object_names : list string;
  blendermcp_use_polyhaven : bool;
  blendermcp_use_hyper3d : bool;
  blendermcp_hyper3d_mode : string;
  blendermcp_hyper3d_api_key : string
}.

(** The state of the host: [bpy.data] and [bpy.context.scene].  Objects live
    in [bpy.data.objects], keyed by name; a scene refers to its objects. *)
Record World : Type := mk_World {
  bpy_data_objects : gmap string Object;
  bpy_data_materials : list string;
  bpy_data_collections : list string;
  scene : Scene
}.

(** [bpy.context.scene.objects], in scene order *)
Definition scene_objects (w : World) : list Object :=
  omap (fun name => bpy_data_objects w !! name) (scene_object_names (scene w)).

(** ** The command names and their handlers *)

(** One constructor per handler method of [BlenderMCPServer]. *)
Module Handler.
Inductive t : Type :=
| get_scene_info | get_object_info | execute_code
| add_primitive | add_curve | add_text | add_empty | add_light | add_camera
| transform_object | duplicate_object | delete_object | rename_object
| parent_object | join_objects
| enter_edit_mode | exit_edit_mode | select_all | extrude_mesh
| subdivide_mesh | bevel_mesh | inset_faces | loop_cut | merge_vertices
| add_modifier | remove_modifier | apply_modifier | list_modifiers
| create_material | assign_material | set_material_color | set_smooth_shading
| set_keyframe | set_frame | get_frame_range
| set_render_settings | render_image | render_animation
| create_collection | link_to_collection
| get_polyhaven_status | get_hyper3d_status
| get_polyhaven_categories | search_polyhaven_assets
| download_polyhaven_asset | set_texture
| create_rodin_job | poll_rodin_job_status | import_generated_asset.
End Handler.

(** The parameter list of a handler, [self] apart: the names without a default,
    the names with one, and whether [**kwargs] collects the others. *)
Record signature : Type := mk_sig {
  sig_required : list string;
  sig_optional : list string;
  sig_var_keyword : bool
}.

Definition handler_signature (h : Handler.t) : signature :=
  match h with
  | Handler.get_scene_info => mk_sig [] [] false
  | Handler.get_object_info => mk_sig ["name"] [] false
  | Handler.execute_code => mk_sig ["code"] [] false
  | Handler.add_primitive =>
      mk_sig [] ["primitive_type"; "location"; "rotation"; "scale"; "name"] false
  | Handler.add_curve => mk_sig [] ["curve_type"; "location"; "name"] false
  | Handler.add_text => mk_sig [] ["text"; "location"; "name"] false
  | Handler.add_empty => mk_sig [] ["empty_type"; "location"; "name"] false
  | Handler.add_light => mk_sig [] ["light_type"; "location"; "energy"; "name"] false
  | Handler.add_camera => mk_sig [] ["location"; "rotation"; "name"] false
  | Handler.transform_object =>
      mk_sig ["name"] ["location"; "rotation"; "scale"; "relative"] false
  | Handler.duplicate_object => mk_sig ["name"] ["linked"] false
  | Handler.delete_object => mk_sig ["name"] [] false
  | Handler.rename_object => mk_sig ["old_name"; "new_name"] [] false
  | Handler.parent_object => mk_sig ["child_name"; "parent_name"] ["keep_transform"] false
  | Handler.join_objects => mk_sig ["object_names"] [] false
  | Handler.enter_edit_mode => mk_sig ["object_name"] [] false
  | Handler.exit_edit_mode => mk_sig [] [] false
  | Handler.select_all => mk_sig [] ["action"] false
  | Handler.extrude_mesh => mk_sig ["object_name"] ["distance"; "direction"] false
  | Handler.subdivide_mesh => mk_sig ["object_name"] ["cuts"] false
  | Handler.bevel_mesh => mk_sig ["object_name"] ["offset"; "segments"] false
  | Handler.inset_faces => mk_sig ["object_name"] ["thickness"] false
  | Handler.loop_cut => mk_sig ["object_name"] ["number_cuts"] false
  | Handler.merge_vertices => mk_sig ["object_name"] ["merge_type"] false
  | Handler.add_modifier => mk_sig ["object_name"; "modifier_type"] [] true
  | Handler.remove_modifier => mk_sig ["object_name"; "modifier_name"] [] false
  | Handler.apply_modifier => mk_sig ["object_name"; "modifier_name"] [] false
  | Handler.list_modifiers => mk_sig ["object_name"] [] false
  | Handler.create_material => mk_sig ["name"] ["color"; "metallic"; "roughness"] false
  | Handler.assign_material => mk_sig ["object_name"; "material_name"] [] false
  | Handler.set_material_color => mk_sig ["material_name"; "color"] [] false
  | Handler.set_smooth_shading => mk_sig ["object_name"] ["smooth"] false
  | Handler.set_keyframe => mk_sig ["object_name"; "data_path"] ["frame"; "value"] false
  | Handler.set_frame => mk_sig ["frame"] [] false
  | Handler.get_frame_range => mk_sig [] [] false
  | Handler.set_render_settings =>
      mk_sig [] ["engine"; "samples"; "resolution_x"; "resolution_y"] false
  | Handler.render_image => mk_sig [] ["filepath"] false
  | Handler.render_animation => mk_sig [] ["filepath"] false
  | Handler.create_collection => mk_sig ["name"] [] false
  | Handler.link_to_collection => mk_sig ["object_name"; "collection_name"] [] false
  | Handler.get_polyhaven_status => mk_sig [] [] false
  | Handler.get_hyper3d_status => mk_sig [] [] false
  | Handler.get_polyhaven_categories => mk_sig ["asset_type"] [] false
  | Handler.search_polyhaven_assets => mk_sig [] ["asset_type"; "categories"] false
  | Handler.download_polyhaven_asset =>
      mk_sig ["asset_id"; "asset_type"] ["resolution"; "file_format"] false
  | Handler.set_texture => mk_sig ["object_name"; "texture_id"] [] false
  | Handler.create_rodin_job => mk_sig [] [] true
  | Handler.poll_rodin_job_status => mk_sig [] [] true
  | Handler.import_generated_asset => mk_sig [] [] true
  end.

(** [handler.__qualname__], as interpreter messages print it *)
Definition qualname (h : Handler.t) : string :=
  "BlenderMCPServer." +:+
  match h with
  | Handler.get_scene_info => "get_scene_info"
  | Handler.get_object_info => "get_object_info"
  | Handler.execute_code => "execute_code"
  | Handler.add_primitive => "add_primitive"
  | Handler.add_curve => "add_curve"
  | Handler.add_text => "add_text"
  | Handler.add_empty => "add_empty"
  | Handler.add_light => "add_light"
  | Handler.add_camera => "add_camera"
  | Handler.transform_object => "transform_object"
  | Handler.duplicate_object => "duplicate_object"
  | Handler.delete_object => "delete_object"
  | Handler.rename_object => "rename_object"
  | Handler.parent_object => "parent_object"
  | Handler.join_objects => "join_objects"
  | Handler.enter_edit_mode => "enter_edit_mode"
  | Handler.exit_edit_mode => "exit_edit_mode"
  | Handler.select_all => "select_all"
  | Handler.extrude_mesh => "extrude_mesh"
  | Handler.subdivide_mesh => "subdivide_mesh"
  | Handler.bevel_mesh => "bevel_mesh"
  | Handler.inset_faces => "inset_faces"
  | Handler.loop_cut => "loop_cut"
  | Handler.merge_vertices => "merge_vertices"
  | Handler.add_modifier => "add_modifier"
  | Handler.remove_modifier => "remove_modifier"
  | Handler.apply_modifier => "apply_modifier"
  | Handler.list_modifiers => "list_modifiers"
  | Handler.create_material => "create_material"
  | Handler.assign_material => "assign_material"
  | Handler.set_material_color => "set_material_color"
  | Handler.set_smooth_shading => "set_smooth_shading"
  | Handler.set_keyframe => "set_keyframe"
  | Handler.set_frame => "set_frame"
  | Handler.get_frame_range => "get_frame_range"
  | Handler.set_render_settings => "set_render_settings"
  | Handler.render_image => "render_image"
  | Handler.render_animation => "render_animation"
  | Handler.create_collection => "create_collection"
  | Handler.link_to_collection => "link_to_collection"
  | Handler.get_polyhaven_status => "get_polyhaven_status"
  | Handler.get_hyper3d_status => "get_hyper3d_status"
  | Handler.get_polyhaven_categories => "get_polyhaven_categories"
  | Handler.search_polyhaven_assets => "search_polyhaven_assets"
  | Handler.download_polyhaven_asset => "download_polyhaven_asset"
  | Handler.set_texture => "set_texture"
  | Handler.create_rodin_job => "create_rodin_job"
  | Handler.poll_rodin_job_status => "poll_rodin_job_status"
  | Handler.import_generated_asset => "import_generated_asset"
  end.

(** The [handlers] dict literal of [_execute_command_internal]: always there. *)
Definition base_handlers : gmap string Handler.t :=
  list_to_map [
    ("get_scene_info", Handler.get_scene_info);
    ("get_object_info", Handler.get_object_info);
    ("execute_code", Handler.execute_code);
    ("add_primitive", Handler.add_primitive);
    ("add_curve", Handler.add_curve);
    ("add_text", Handler.add_text);
    ("add_empty", Handler.add_empty);
    ("add_light", Handler.add_light);
    ("add_camera", Handler.add_camera);
    ("transform_object", Handler.transform_object);
    ("duplicate_object", Handler.duplicate_object);
    ("delete_object", Handler.delete_object);
    ("rename_object", Handler.rename_object);
    ("parent_object", Handler.parent_object);
    ("join_objects", Handler.join_objects);
    ("enter_edit_mode", Handler.enter_edit_mode);
    ("exit_edit_mode", Handler.exit_edit_mode);
    ("select_all", Handler.select_all);
    ("extrude_mesh", Handler.extrude_mesh);
    ("subdivide_mesh", Handler.subdivide_mesh);
    ("bevel_mesh", Handler.bevel_mesh);
    ("inset_faces", Handler.inset_faces);
    ("loop_cut", Handler.loop_cut);
    ("merge_vertices", Handler.merge_vertices);
    ("add_modifier", Handler.add_modifier);
    ("remove_modifier", Handler.remove_modifier);
    ("apply_modifier", Handler.apply_modifier);
    ("list_modifiers", Handler.list_modifiers);
    ("create_material", Handler.create_material);
    ("assign_material", Handler.assign_material);
    ("set_material_color", Handler.set_material_color);
    ("set_smooth_shading", Handler.set_smooth_shading);
    ("set_keyframe", Handler.set_keyframe);
    ("set_frame", Handler.set_frame);
    ("get_frame_range", Handler.get_frame_range);
    ("set_render_settings", Handler.set_render_settings);
    ("render_image", Handler.render_image);
    ("render_animation", Handler.render_animation);
    ("create_collection", Handler.create_collection);
    ("link_to_collection", Handler.link_to_collection);
    ("get_polyhaven_status", Handler.get_polyhaven_status);
    ("get_hyper3d_status", Handler.get_hyper3d_status)
  ].

Definition polyhaven_handlers : gmap string Handler.t :=
  list_to_map [
    ("get_polyhaven_categories", Handler.get_polyhaven_categories);
    ("search_polyhaven_assets", Handler.search_polyhaven_assets);
    ("download_polyhaven_asset", Handler.download_polyhaven_asset);
    ("set_texture", Handler.set_texture)
  ].

Definition hyper3d_handlers : gmap string Handler.t :=
  list_to_map [
    ("create_rodin_job", Handler.create_rodin_job);
    ("poll_rodin_job_status", Handler.poll_rodin_job_status);
    ("import_generated_asset", Handler.import_generated_asset)
  ].

(** [handlers.update(other)]: the entries of [other] win. *)
Definition dict_update (handlers other : gmap string Handler.t) : gmap string Handler.t :=
  other ∪ handlers.

(** The handler set as [_execute_command_internal] builds it on each call, from
    the two flags of the current scene. *)
Definition enabled_handlers (w : World) : gmap string Handler.t :=
  let handlers := base_handlers in
  let handlers :=
    if blendermcp_use_polyhaven (scene w)
    then dict_update handlers polyhaven_handlers else handlers in
  let handlers :=
    if blendermcp_use_hyper3d (scene w)
    then dict_update handlers hyper3d_handlers else handlers in
  handlers.

(** [handlers.get(cmd_type)].  The key is hashed first: a [list] or a [dict]
    raises [TypeError]; any other key that is not a [str] is merely absent,
    since every key of [handlers] is a [str]. *)
Definition handlers_get (handlers : gmap string Handler.t) (cmd_type : value)
  : result (option Handler.t) :=
  match cmd_type with
  | VStr name => Return (handlers !! name)
  | VList _ => Raise (mk_exn TypeError "unhashable type: 'list'")
  | VDict _ => Raise (mk_exn TypeError "unhashable type: 'dict'")
  | _ => Return None
  end.

(** ** Collaborators *)

(** The reply of [requests.get]: [response.status_code] and the outcome of
    [response.json()]. *)
Record http_response : Type := mk_response {
  status_code : Z;
  response_json : result value
}.

(** What the add-on calls and does not define: Python built-ins and [json],
    [requests], [exec], and the Blender scene engine. *)
Record Host : Type := mk_Host {
  (** [str(v)] for a [float], [list], [dict] or other object *)
  str_other : value -> string;
  (** [round(x, ndigits)] *)
  round_ndigits : pyfloat -> Z -> pyfloat;
  (** [json.loads(text)] *)
  json_loads : string -> result value;
  (** [json.dumps(v)] *)
  json_dumps : value -> result string;
  (** [requests.get(url, params=params)] *)
  requests_get : string -> list (string * value) -> result http_response;
  (** [exec(code, namespace)] under [redirect_stdout]: the captured output *)
  py_exec : value -> World -> result string * World;
  (** [obj.modifiers.new(name=..., type=...)]: the modifier Blender creates *)
  modifiers_new : Object -> value -> value -> result Modifier;
  (** [setattr(mod, key, value)] on a modifier *)
  modifier_setattr : Modifier -> string -> value -> result Modifier;
  (** the body of each handler that is not modelled below, run on its keyword
      arguments; for a Hyper3D command, the body of the method it forwards
      to *)
  scene_engine : Handler.t -> list (string * value) -> World -> result value * World;
  (** [BlenderMCPServer.__module__], the name under which the interpreter
      loaded the file: [addon] as an add-on, [__main__] as a script *)
  module_name : string
}.

(** [str(v)], as an f-string formats [{v}] *)
Definition py_str (H : Host) (v : value) : string :=
  match v with
  | VStr s => s
  | VNone => "None"
  | VBool true => "True"
  | VBool false => "False"
  | VInt n => NilZero.string_of_int (Z.to_int n)
  | _ => str_other H v
  end.

(** Sequencing of calls that may raise *)
#[global] Instance result_ret : MRet result := fun A a => Return a.

#[global] Instance result_bind : MBind result := fun A B k r =>
  match r with
  | Return a => k a
  | Raise e => Raise e
  end.

(** [try: body  except Exception as e: handler(e)]: an exception that does not
    derive from [Exception] passes through. *)
Definition except_Exception {A : Type} (body : result A) (handler : exn -> result A)
  : result A :=
  match body with
  | Return a => Return a
  | Raise e => if isinstance_Exception e then handler e else Raise e
  end.

(** ** Calling a handler with [**params] *)

Definition quote (s : string) : string := "'" +:+ s +:+ "'".

(** The names of three or more missing arguments: ['a', 'b', and 'c'] *)
Fixpoint name_list (names : list string) : string :=
  match names with
  | [] => EmptyString
  | [a] => quote a
  | [a; b] => quote a +:+ ", and " +:+ quote b
  | a :: rest => quote a +:+ ", " +:+ name_list rest
  end.

Definition format_missing (names : list string) : string :=
  match names with
  | [a; b] => quote a +:+ " and " +:+ quote b
  | _ => name_list names
  end.

(** The interpreter takes the keywords in the order of the mapping.  [self] is
    already bound by the method; a keyword that names no parameter is an error
    unless the handler declares [**kwargs]. *)
Fixpoint check_keywords (h : Handler.t) (kwargs : list (string * value)) : result unit :=
  match kwargs with
  | [] => Return tt
  | (key, _) :: rest =>
      let sg := handler_signature h in
      if String.eqb key "self" then
        Raise (mk_exn TypeError
                 (qualname h +:+ "() got multiple values for argument 'self'"))
      else if existsb (String.eqb key) (sig_required sg ++ sig_optional sg)
              || sig_var_keyword sg then
        check_keywords h rest
      else
        Raise (mk_exn TypeError
                 (qualname h +:+ "() got an unexpected keyword argument " +:+ quote key))
  end.

(** The required parameters that [kwargs] does not give *)
Definition missing_arguments (h : Handler.t) (kwargs : list (string * value))
  : list string :=
  filter (fun name => dict_has name kwargs = false) (sig_required (handler_signature h)).

(** Argument binding of a call with keyword arguments only: it raises
    [TypeError] before the body of the handler starts, or lets the call
    proceed. *)
Definition bind_arguments (h : Handler.t) (kwargs : list (string * value)) : result unit :=
  check_keywords h kwargs ;;
  match missing_arguments h kwargs with
  | [] => Return tt
  | missing =>
      let n := length missing in
      Raise (mk_exn TypeError
               (qualname h +:+ "() missing " +:+ NilZero.string_of_int (Z.to_int (Z.of_nat n))
                +:+ " required positional argument" +:+ (if Nat.eqb n 1 then EmptyString else "s")
                +:+ ": " +:+ format_missing missing))
  end.

(** The value a parameter takes in the body: the keyword given, else its
    default. *)
Definition kwarg (name : string) (kwargs : list (string * value)) (default : value) : value :=
  match dict_get name kwargs with
  | Some v => v
  | None => default
  end.

(** *** Calling a method that is not a command *)

(** [check_keywords] and [bind_arguments] for any method, given its qualified
    name and parameter list. *)
Fixpoint check_keywords_of (qual : string) (sg : signature) (kwargs : list (string * value))
  : result unit :=
  match kwargs with
  | [] => Return tt
  | (key, _) :: rest =>
      if String.eqb key "self" then
        Raise (mk_exn TypeError (qual +:+ "() got multiple values for argument 'self'"))
      else if existsb (String.eqb key) (sig_required sg ++ sig_optional sg)
              || sig_var_keyword sg then
        check_keywords_of qual sg rest
      else
        Raise (mk_exn TypeError
                 (qual +:+ "() got an unexpected keyword argument " +:+ quote key))
  end.

Definition bind_signature (qual : string) (sg : signature) (kwargs : list (string * value))
  : result unit :=
  check_keywords_of qual sg kwargs ;;
  match filter (fun name => dict_has name kwargs = false) (sig_required sg) with
  | [] => Return tt
  | missing =>
      let n := length missing in
      Raise (mk_exn TypeError
               (qual +:+ "() missing " +:+ NilZero.string_of_int (Z.to_int (Z.of_nat n))
                +:+ " required positional argument" +:+ (if Nat.eqb n 1 then EmptyString else "s")
                +:+ ": " +:+ format_missing missing))
  end.

(** *** The Hyper3D commands *)

(** [create_rodin_job], [poll_rodin_job_status] and [import_generated_asset]
    are declared with [*args, **kwargs] and pass both on to the method of the
    mode of the scene, which has a fixed parameter list and binds them. *)
Definition create_rodin_job_signature : signature :=
  mk_sig [] ["text_prompt"; "images"; "bbox_condition"] false.
Definition main_site_signature : signature := mk_sig ["subscription_key"] [] false.
Definition fal_ai_signature : signature := mk_sig ["request_id"] [] false.
Definition import_main_site_signature : signature := mk_sig ["task_uuid"; "name"] [] false.
Definition import_fal_ai_signature : signature := mk_sig ["request_id"; "name"] [] false.

(** The method a Hyper3D command forwards to in a mode, by its qualified name
    and its parameters; nothing for another handler, and nothing for a mode
    that is neither [MAIN_SITE] nor [FAL_AI] (the scene property is an
    enumeration of these two). *)
Definition forward_target (h : Handler.t) (mode : string) : option (string * signature) :=
  match h with
  | Handler.create_rodin_job =>
      if String.eqb mode "MAIN_SITE" then
        Some ("BlenderMCPServer.create_rodin_job_main_site", create_rodin_job_signature)
      else if String.eqb mode "FAL_AI" then
        Some ("BlenderMCPServer.create_rodin_job_fal_ai", create_rodin_job_signature)
      else None
  | Handler.poll_rodin_job_status =>
      if String.eqb mode "MAIN_SITE" then
        Some ("BlenderMCPServer.poll_rodin_job_status_main_site", main_site_signature)
      else if String.eqb mode "FAL_AI" then
        Some ("BlenderMCPServer.poll_rodin_job_status_fal_ai", fal_ai_signature)
      else None
  | Handler.import_generated_asset =>
      if String.eqb mode "MAIN_SITE" then
        Some ("BlenderMCPServer.import_generated_asset_main_site", import_main_site_signature)
      else if String.eqb mode "FAL_AI" then
        Some ("BlenderMCPServer.import_generated_asset_fal_ai", import_fal_ai_signature)
      else None
  | _ => None
  end.

(** ** Handlers *)

(** *** [get_scene_info] *)

Definition obj_info (H : Host) (obj : Object) : value :=
  let '(x, y, z) := obj_location obj in
  VDict [("name", VStr (obj_name obj));
         ("type", VStr (obj_type obj));
         ("location", VList [VFloat (round_ndigits H x 2);
                             VFloat (round_ndigits H y 2);
                             VFloat (round_ndigits H z 2)])].

(** [for i, obj in enumerate(bpy.context.scene.objects): if i >= 10: break; ...
    scene_info["objects"].append(obj_info)]; [acc] is the list built so far. *)
Fixpoint objects_loop (H : Host) (i : nat) (objs : list Object) (acc : list value)
  : list value :=
  match objs with
  | [] => acc
  | obj :: rest =>
      if Nat.leb 10 i then acc
      else objects_loop H (S i) rest (acc ++ [obj_info H obj])
  end.

(** No step of the body raises on the data of [World], so the [except] clause
    of the source, which would return [{"error": str(e)}], is not taken. *)
Definition get_scene_info (H : Host) (w : World) : value :=
  VDict [("name", VStr (scene_name (scene w)));
         ("frame_current", VInt (frame_current (scene w)));
         ("frame_start", VInt (frame_start (scene w)));
         ("frame_end", VInt (frame_end (scene w)));
         ("object_count", VInt (Z.of_nat (length (scene_objects w))));
         ("objects", VList (objects_loop H 0 (scene_objects w) []));
         ("materials_count", VInt (Z.of_nat (length (bpy_data_materials w))));
         ("collections", VList (map VStr (bpy_data_collections w)))].

(** *** [execute_code] *)

Definition execute_code (H : Host) (code : value) (w : World) : result value * World :=
  let '(outcome, w') := py_exec H code w in
  (except_Exception
     (captured_output ← outcome;
      Return (VDict [("executed", VBool true); ("result", VStr captured_output)]))
     (fun e => Raise (mk_exn Exception_ ("Code execution error: " +:+ exc_str e))),
   w').

(** *** [add_modifier] *)

(** [bpy.data.objects.get(key)]; Blender refuses a key that is not a [str].
    The class and the text of what it raises then vary with the version of
    Blender; all that is used of it below is that it derives from
    [Exception]. *)
Definition objects_get (w : World) (key : value) : result (option Object) :=
  match key with
  | VStr name => Return (bpy_data_objects w !! name)
  | _ => Raise (mk_exn KeyError
                  ("bpy_prop_collection.get(key, ...): key must be a string or tuple of 2 strings, not "
                   +:+ type_name key))
  end.

(** [hasattr(mod, key)]: [mod_props] lists the attributes of a modifier other
    than [name] and [type]. *)
Definition modifier_hasattr (md : Modifier) (key : string) : bool :=
  String.eqb key "name" || String.eqb key "type" || dict_has key (mod_props md).

(** [for key, value in kwargs.items(): if hasattr(md, key): setattr(md, key,
    value)].  The modifier is changed in place: the second component is its
    state when the loop ends or raises. *)
Fixpoint set_modifier_attrs (H : Host) (md : Modifier) (kwargs : list (string * value))
  : result unit * Modifier :=
  match kwargs with
  | [] => (Return tt, md)
  | (key, v) :: rest =>
      if modifier_hasattr md key then
        match modifier_setattr H md key v with
        | Return md' => set_modifier_attrs H md' rest
        | Raise e => (Raise e, md)
        end
      else set_modifier_attrs H md rest
  end.

(** The object [name] of [bpy.data.objects] with [md] last in its stack. *)
Definition with_modifier (w : World) (name : string) (obj : Object) (md : Modifier) : World :=
  mk_World
    (<[name := mk_Object (obj_name obj) (obj_type obj) (obj_location obj)
                         (obj_modifiers obj ++ [md])]> (bpy_data_objects w))
    (bpy_data_materials w) (bpy_data_collections w) (scene w).

(** What [**kwargs] of [add_modifier] collects: the keywords that are not its
    two named parameters. *)
Definition extra_kwargs (kwargs : list (string * value)) : list (string * value) :=
  filter (fun kv => negb (String.eqb (fst kv) "object_name" || String.eqb (fst kv) "modifier_type"))
         kwargs.

Definition add_modifier (H : Host) (kwargs : list (string * value)) (w : World)
  : result value * World :=
  let object_name := kwarg "object_name" kwargs VNone in
  let modifier_type := kwarg "modifier_type" kwargs VNone in
  match objects_get w object_name with
  | Raise e => (Raise e, w)
  | Return None =>
      (Raise (mk_exn ValueError ("Object not found: " +:+ py_str H object_name)), w)
  | Return (Some obj) =>
      match modifiers_new H obj modifier_type modifier_type with
      | Raise e => (Raise e, w)
      | Return md =>
          let '(outcome, md') := set_modifier_attrs H md (extra_kwargs kwargs) in
          let w' := with_modifier w (py_str H object_name) obj md' in
          (outcome ;;
           Return (VDict [("object", object_name);
                          ("modifier", VStr (mod_name md'));
                          ("type", modifier_type)]),
           w')
      end
  end.

(** *** The Polyhaven handlers *)

Definition get_polyhaven_categories (H : Host) (asset_type : value) : result value :=
  except_Exception
    (if negb (in_strs asset_type ["hdris"; "textures"; "models"; "all"]) then
       Return (VDict [("error",
                       VStr ("Invalid asset type: " +:+ py_str H asset_type
                             +:+ ". Must be one of: hdris, textures, models, all"))])
     else
       response ← requests_get H ("https://api.polyhaven.com/categories/"
                                   +:+ py_str H asset_type) [];
       if Z.eqb (status_code response) 200 then
         categories ← response_json response;
         Return (VDict [("categories", categories)])
       else
         Return (VDict [("error",
                         VStr ("API request failed with status code "
                               +:+ py_str H (VInt (status_code response))))]))
    (fun e => Return (VDict [("error", VStr (exc_str e))])).

(** [for i, (key, value) in enumerate(assets.items()): if i >= 20: break;
    limited_assets[key] = value] *)
Fixpoint limit_loop (i : nat) (items : list (string * value))
                    (limited_assets : list (string * value)) : list (string * value) :=
  match items with
  | [] => limited_assets
  | (key, v) :: rest =>
      if Nat.leb 20 i then limited_assets
      else limit_loop (S i) rest (dict_set key v limited_assets)
  end.

Definition search_polyhaven_assets (H : Host) (asset_type categories : value)
  : result value :=
  except_Exception
    (let url := "https://api.polyhaven.com/assets" in
     let params := [] in
     let typed := truthy asset_type && negb (eq_str asset_type "all") in
     if typed && negb (in_strs asset_type ["hdris"; "textures"; "models"]) then
       Return (VDict [("error",
                       VStr ("Invalid asset type: " +:+ py_str H asset_type
                             +:+ ". Must be one of: hdris, textures, models, all"))])
     else
       let params := if typed then dict_set "type" asset_type params else params in
       let params :=
         if truthy categories then dict_set "categories" categories params else params in
       response ← requests_get H url params;
       if Z.eqb (status_code response) 200 then
         assets ← response_json response;
         match assets with
         | VDict items =>
             let limited_assets := limit_loop 0 items [] in
             Return (VDict [("assets", VDict limited_assets);
                            ("total_count", VInt (Z.of_nat (length items)));
                            ("returned_count", VInt (Z.of_nat (length limited_assets)))])
         | _ =>
             Raise (mk_exn AttributeError
                      (quote (type_name assets) +:+ " object has no attribute 'items'"))
         end
       else
         Return (VDict [("error",
                         VStr ("API request failed with status code "
                               +:+ py_str H (VInt (status_code response))))]))
    (fun e => Return (VDict [("error", VStr (exc_str e))])).

(** ** Dispatch *)

(** The body a handler runs once its arguments are bound.  A Hyper3D command
    forwards its keywords to the method of the mode of the scene, which binds
    them to its own parameters before its body runs; in a mode that is
    neither of the two it returns a text. *)
Definition call_handler (H : Host) (h : Handler.t) (kwargs : list (string * value))
                        (w : World) : result value * World :=
  match h with
  | Handler.get_scene_info => (Return (get_scene_info H w), w)
  | Handler.execute_code => execute_code H (kwarg "code" kwargs VNone) w
  | Handler.add_modifier => add_modifier H kwargs w
  | Handler.get_polyhaven_categories =>
      (get_polyhaven_categories H (kwarg "asset_type" kwargs VNone), w)
  | Handler.search_polyhaven_assets =>
      (search_polyhaven_assets H (kwarg "asset_type" kwargs VNone)
                                 (kwarg "categories" kwargs VNone), w)
  | Handler.create_rodin_job | Handler.poll_rodin_job_status
  | Handler.import_generated_asset =>
      match forward_target h (blendermcp_hyper3d_mode (scene w)) with
      | Some (qual, sg) =>
          match bind_signature qual sg kwargs with
          | Raise e => (Raise e, w)
          | Return _ => scene_engine H h kwargs w
          end
      | None => (Return (VStr "Error: Unknown Hyper3D Rodin mode!"), w)
      end
  | _ => scene_engine H h kwargs w
  end.

(** [handler( **params )]: [params] must be a mapping, its keys must bind to the
    parameters of the handler, and only then does the body run.  The message
    for a [params] that is not a mapping names the function as the interpreter
    prints it, with its module: [addon.BlenderMCPServer.get_scene_info()
    argument after ** must be a mapping, not list]. *)
Definition call_kwargs (H : Host) (h : Handler.t) (params : value) (w : World)
  : result value * World :=
  match params with
  | VDict kwargs =>
      match bind_arguments h kwargs with
      | Raise e => (Raise e, w)
      | Return _ => call_handler H h kwargs w
      end
  | _ =>
      (Raise (mk_exn TypeError
                (module_name H +:+ "." +:+ qualname h
                 +:+ "() argument after ** must be a mapping, not "
                 +:+ type_name params)), w)
  end.

(** [command.get(key, default)]; [command] is whatever [json.loads] returned. *)
Definition command_get (command : value) (key : string) (default : value) : result value :=
  match command with
  | VDict entries =>
      Return (match dict_get key entries with Some v => v | None => default end)
  | _ =>
      Raise (mk_exn AttributeError
               (quote (type_name command) +:+ " object has no attribute 'get'"))
  end.

(** The two shapes of a Response. *)
Definition success_response (res : value) : value :=
  VDict [("status", VStr "success"); ("result", res)].

Definition error_response (message : string) : value :=
  VDict [("status", VStr "error"); ("message", VStr message)].

Definition _execute_command_internal (H : Host) (command : value) (w : World)
  : result value * World :=
  match command_get command "type" VNone with
  | Raise e => (Raise e, w)
  | Return cmd_type =>
      match command_get command "params" (VDict []) with
      | Raise e => (Raise e, w)
      | Return params =>
          let handlers := enabled_handlers w in
          match handlers_get handlers cmd_type with
          | Raise e => (Raise e, w)
          | Return (Some handler) =>
              let '(outcome, w') := call_kwargs H handler params w in
              match outcome with
              | Return res => (Return (success_response res), w')
              | Raise e =>
                  if isinstance_Exception e
                  then (Return (error_response (exc_str e)), w')
                  else (Raise e, w')
              end
          | Return None =>
              (Return (error_response ("Unknown command type: " +:+ py_str H cmd_type)), w)
          end
      end
  end.

Definition execute_command (H : Host) (command : value) (w : World)
  : result value * World :=
  let '(outcome, w') := _execute_command_internal H command w in
  match outcome with
  | Return response => (Return response, w')
  | Raise e =>
      if isinstance_Exception e
      then (Return (error_response (exc_str e)), w')
      else (Raise e, w')
  end.

(** ** The connection *)

(** The client end of a connection: whether the peer is still there and what
    it has been sent. *)
Record Client : Type := mk_Client {
  peer_connected : bool;
  sent : list string
}.

(** [client.sendall(data)] *)
Definition sendall (client : Client) (data : string) : result unit * Client :=
  if peer_connected client
  then (Return tt, mk_Client true (sent client ++ [data]))
  else (Raise (mk_exn OSError "[Errno 32] Broken pipe"), client).

(** The closure [execute_wrapper] that [_handle_client] registers as a timer,
    run on the value [command] that its variable holds; the host runs it on
    its main thread.  A [str] is held as its UTF-8 bytes, so [encode('utf-8')]
    is the identity.  Both [sendall] calls sit in a bare [except:], which
    swallows every failure. *)
Definition execute_wrapper (H : Host) (command : value) (w : World) (client : Client)
  : result unit * World * Client :=
  let '(outcome, w') := execute_command H command w in
  match outcome ≫= json_dumps H with
  | Return response_json =>
      let '(_, client') := sendall client response_json in
      (Return tt, w', client')
  | Raise e =>
      if isinstance_Exception e then
        match json_dumps H (error_response (exc_str e)) with
        | Return text =>
            let '(_, client') := sendall client text in
            (Return tt, w', client')
        | Raise _ => (Return tt, w', client)
        end
      else (Raise e, w', client)
  end.

(** What happens to the timers of one connection, in the order it happens:
    the handler thread decodes a command, assigns it to its variable [command]
    and registers one more [execute_wrapper]; or the host, on its main thread,
    runs the oldest timer registered. *)
Inductive timer_event : Type :=
| Decoded (command : value)
| TimerFires.

(** Every [execute_wrapper] of a connection is a closure over the one variable
    [command] of [_handle_client], so a timer executes the value that variable
    holds when the timer runs: the command decoded last.  [command] is that
    variable and [pending] the number of timers registered and not yet run.
    A timer returns [None] and is thereby unregistered.  An exception that
    leaves a timer reaches the host, and the run is followed no further. *)
Fixpoint run_timers (H : Host) (events : list timer_event) (command : option value)
                    (pending : nat) (w : World) (client : Client)
  : result unit * World * Client :=
  match events with
  | [] => (Return tt, w, client)
  | Decoded c :: rest => run_timers H rest (Some c) (S pending) w client
  | TimerFires :: rest =>
      match pending, command with
      | S pending', Some c =>
          match execute_wrapper H c w client with
          | (Return _, w', client') => run_timers H rest command pending' w' client'
          | (Raise e, w', client') => (Raise e, w', client')
          end
      | _, _ => run_timers H rest command pending w client
      end
  end.

(** *** [bytes.decode('utf-8')] *)

Definition byte_in (lo hi : N) (b : byte) : bool :=
  (lo <=? Byte.to_N b)%N && (Byte.to_N b <=? hi)%N.

(** A continuation byte [10xxxxxx] *)
Definition continuation (b : byte) : bool := byte_in 128 191 b.

(** Well-formed UTF-8: shortest forms only, no surrogates, nothing above
    U+10FFFF. *)
Fixpoint utf8_valid (bs : list byte) : bool :=
  match bs with
  | [] => true
  | b0 :: rest =>
      if byte_in 0 127 b0 then utf8_valid rest
      else if byte_in 194 223 b0 then
        match rest with
        | b1 :: rest1 => continuation b1 && utf8_valid rest1
        | _ => false
        end
      else if byte_in 224 239 b0 then
        match rest with
        | b1 :: b2 :: rest2 =>
            (if byte_in 224 224 b0 then byte_in 160 191 b1
             else if byte_in 237 237 b0 then byte_in 128 159 b1
             else continuation b1)
            && continuation b2 && utf8_valid rest2
        | _ => false
        end
      else if byte_in 240 244 b0 then
        match rest with
        | b1 :: b2 :: b3 :: rest3 =>
            (if byte_in 240 240 b0 then byte_in 144 191 b1
             else if byte_in 244 244 b0 then byte_in 128 143 b1
             else continuation b1)
            && continuation b2 && continuation b3 && utf8_valid rest3
        | _ => false
        end
      else false
  end.

(** [buffer.decode('utf-8')]: strict, so ill-formed or truncated input raises
    [UnicodeDecodeError] (its message is only ever printed). *)
Definition decode_utf8 (buffer : list byte) : result string :=
  if utf8_valid buffer then Return (string_of_list_byte buffer)
  else Raise (mk_exn UnicodeDecodeError "'utf-8' codec can't decode bytes").

(** *** [_handle_client] *)

(** What [client.recv(8192)] does on one pass of the loop. *)
Inductive recv_outcome : Type :=
| RecvData (data : list byte)
| RecvRaise (e : exn).

(** One pass of [while self.running:]: the flag as the loop reads it, and the
    outcome of the read that follows if it is set. *)
Record iteration : Type := mk_iteration {
  running_now : bool;
  recv : recv_outcome
}.

(** The handler is blocked in [recv] holding [buffer], or it has left the loop
    and closed the client.  [submitted] lists the commands decoded so far,
    oldest first: each was assigned to the variable [command] and registered
    one timer with [bpy.app.timers] (what a timer then executes is in
    [run_timers]). *)
Inductive conn_state : Type :=
| Reading (buffer : list byte) (submitted : list value)
| Closed (submitted : list value).

Fixpoint _handle_client_loop (H : Host) (buffer : list byte) (submitted : list value)
                             (passes : list iteration) : conn_state :=
  match passes with
  | [] => Reading buffer submitted
  | pass :: rest =>
      if negb (running_now pass) then Closed submitted
      else
        match recv pass with
        | RecvRaise _ => Closed submitted
        | RecvData [] => Closed submitted
        | RecvData data =>
            let buffer := (buffer ++ data)%list in
            match decode_utf8 buffer ≫= json_loads H with
            | Return command =>
                _handle_client_loop H [] (submitted ++ [command]) rest
            | Raise e =>
                if isinstance_JSONDecodeError e
                then _handle_client_loop H buffer submitted rest
                else Closed submitted
            end
        end
  end.

(** [buffer = b''], then the loop. *)
Definition _handle_client (H : Host) (passes : list iteration) : conn_state :=
  _handle_client_loop H [] [] passes.

(** ** A JSON reader and writer for the stub host *)

(** The fragment of JSON the examples use: objects, arrays, strings without
    escapes, integers and the three literals.  On that fragment the reader
    and the writer agree with [json.loads] and [json.dumps]; outside it they
    raise. *)

Definition double_quote : ascii := ascii_of_byte x22.

Definition is_whitespace (c : ascii) : bool :=
  match byte_of_ascii c with
  | x20 | x0a | x0d | x09 => true
  | _ => false
  end.

Fixpoint skip_whitespace (s : string) : string :=
  match s with
  | String c rest => if is_whitespace c then skip_whitespace rest else s
  | EmptyString => s
  end.

(** The characters after an opening quote, up to the closing one. *)
Fixpoint read_string (s : string) : option (string * string) :=
  match s with
  | EmptyString => None
  | String c rest =>
      if Ascii.eqb c double_quote then Some (EmptyString, rest)
      else if Ascii.eqb c "\"%char || (N_of_ascii c <? 32)%N then None
      else match read_string rest with
           | Some (text, rest') => Some (String c text, rest')
           | None => None
           end
  end.

Definition digit_of (c : ascii) : option Z :=
  let n := Z.of_N (N_of_ascii c) in
  if (48 <=? n)%Z && (n <=? 57)%Z then Some (n - 48)%Z else None.

(** The longest run of digits at the head of [s], read after [acc]. *)
Fixpoint read_digits (s : string) (acc : Z) : Z * string :=
  match s with
  | String c rest =>
      match digit_of c with
      | Some d => read_digits rest (10 * acc + d)%Z
      | None => (acc, s)
      end
  | EmptyString => (acc, s)
  end.

(** An integer without a leading zero; a fraction or an exponent after it is
    outside the fragment. *)
Definition read_int (s : string) : option (Z * string) :=
  match s with
  | String c rest =>
      match digit_of c with
      | Some d =>
          let '(n, rest') := if Z.eqb d 0 then (0%Z, rest) else read_digits rest d in
          match rest' with
          | String c' _ =>
              if Ascii.eqb c' "." || Ascii.eqb c' "e" || Ascii.eqb c' "E"
              then None else Some (n, rest')
          | EmptyString => Some (n, rest')
          end
      | None => None
      end
  | EmptyString => None
  end.

(** [s] without the prefix [p], if it starts with it. *)
Fixpoint strip_prefix (p s : string) : option string :=
  match p, s with
  | EmptyString, _ => Some s
  | String a p', String b s' => if Ascii.eqb a b then strip_prefix p' s' else None
  | _, _ => None
  end.

Fixpoint read_value (fuel : nat) (s : string) : option (value * string) :=
  match fuel with
  | 0 => None
  | S fuel =>
      match s with
      | EmptyString => None
      | String c rest =>
          if Ascii.eqb c double_quote then
            match read_string rest with
            | Some (text, rest') => Some (VStr text, rest')
            | None => None
            end
          else if Ascii.eqb c "{" then
            match skip_whitespace rest with
            | String "}" rest' => Some (VDict [], rest')
            | rest' =>
                match read_members fuel rest' [] with
                | Some (entries, rest'') => Some (VDict entries, rest'')
                | None => None
                end
            end
          else if Ascii.eqb c "[" then
            match skip_whitespace rest with
            | String "]" rest' => Some (VList [], rest')
            | rest' =>
                match read_elements fuel rest' [] with
                | Some (items, rest'') => Some (VList items, rest'')
                | None => None
                end
            end
          else if Ascii.eqb c "-" then
            match read_int rest with
            | Some (n, rest') => Some (VInt (- n), rest')
            | None => None
            end
          else
            match strip_prefix "true" s, strip_prefix "false" s, strip_prefix "null" s with
            | Some rest', _, _ => Some (VBool true, rest')
            | _, Some rest', _ => Some (VBool false, rest')
            | _, _, Some rest' => Some (VNone, rest')
            | _, _, _ =>
                match read_int s with
                | Some (n, rest') => Some (VInt n, rest')
                | None => None
                end
            end
      end
  end
with read_elements (fuel : nat) (s : string) (items : list value)
  : option (list value * string) :=
  match fuel with
  | 0 => None
  | S fuel =>
      match read_value fuel s with
      | Some (v, rest) =>
          match skip_whitespace rest with
          | String "," rest' =>
              read_elements fuel (skip_whitespace rest') (items ++ [v])%list
          | String "]" rest' => Some ((items ++ [v])%list, rest')
          | _ => None
          end
      | None => None
      end
  end
with read_members (fuel : nat) (s : string) (entries : list (string * value))
  : option (list (string * value) * string) :=
  match fuel with
  | 0 => None
  | S fuel =>
      match s with
      | String c rest =>
          if Ascii.eqb c double_quote then
            match read_string rest with
            | Some (key, rest') =>
                match skip_whitespace rest' with
                | String ":" rest'' =>
                    match read_value fuel (skip_whitespace rest'') with
                    | Some (v, rest3) =>
                        match skip_whitespace rest3 with
                        | String "," rest4 =>
                            read_members fuel (skip_whitespace rest4) (dict_set key v entries)
                        | String "}" rest4 => Some (dict_set key v entries, rest4)
                        | _ => None
                        end
                    | None => None
                    end
                | _ => None
                end
            | None => None
            end
          else None
      | EmptyString => None
      end
  end.

(** One document, with whitespace around it and nothing else. *)
Definition stub_json_loads (text : string) : result value :=
  match read_value (2 * String.length text + 2) (skip_whitespace text) with
  | Some (v, rest) =>
      match skip_whitespace rest with
      | EmptyString => Return v
      | _ => Raise (mk_exn JSONDecodeError "Extra data")
      end
  | None => Raise (mk_exn JSONDecodeError "Expecting value")
  end.

(** A [str] of the fragment between quotes. *)
Fixpoint plain_text (s : string) : bool :=
  match s with
  | EmptyString => true
  | String c rest =>
      negb (Ascii.eqb c double_quote) && negb (Ascii.eqb c "\"%char)
      && (32 <=? N_of_ascii c)%N && (N_of_ascii c <? 127)%N && plain_text rest
  end.

Definition write_string (s : string) : option string :=
  if plain_text s
  then Some (String double_quote s +:+ String double_quote EmptyString)
  else None.

(** The default layout of [json.dumps]: [", "] between items and [": "] after
    a key. *)
Fixpoint write_value (v : value) : option string :=
  match v with
  | VNone => Some "null"
  | VBool true => Some "true"
  | VBool false => Some "false"
  | VInt n => Some (NilZero.string_of_int (Z.to_int n))
  | VStr s => write_string s
  | VList items =>
      text ← (fix write_items (items : list value) : option string :=
                match items with
                | [] => Some EmptyString
                | [item] => write_value item
                | item :: rest =>
                    first ← write_value item;
                    others ← write_items rest;
                    Some (first +:+ ", " +:+ others)
                end) items;
      Some ("[" +:+ text +:+ "]")
  | VDict entries =>
      text ← (fix write_entries (entries : list (string * value)) : option string :=
                match entries with
                | [] => Some EmptyString
                | [(key, item)] =>
                    k ← write_string key;
                    first ← write_value item;
                    Some (k +:+ ": " +:+ first)
                | (key, item) :: rest =>
                    k ← write_string key;
                    first ← write_value item;
                    others ← write_entries rest;
                    Some (k +:+ ": " +:+ first +:+ ", " +:+ others)
                end) entries;
      Some ("{" +:+ text +:+ "}")
  | VFloat _ | VObject _ => None
  end.

Definition stub_json_dumps (v : value) : result string :=
  match write_value v with
  | Some text => Return text
  | None =>
      Raise (mk_exn TypeError
               ("Object of type " +:+ type_name v +:+ " is not JSON serializable"))
  end.

(** ** Server lifecycle *)

(** The sockets and threads of the process, as the operating system holds
    them: descriptors are handed out in order; [listening] maps each bound,
    listening socket to its port; [foreign_ports] are the ports on which a
    socket of another process listens. *)
Record Net : Type := mk_Net {
  next_fd : nat;
  open_sockets : list nat;
  listening : list (nat * Z);
  foreign_ports : list Z;
  next_thread : nat
}.

(** The attributes [__init__] sets. *)
Record BlenderMCPServer : Type := mk_server {
  host : string;
  port : Z;
  running : bool;
  socket : option nat;
  server_thread : option nat
}.

Definition __init__ (host : string) (port : Z) : BlenderMCPServer :=
  mk_server host port false None None.

(** [bind] raises for this port: [OverflowError] for a port outside 0..65535,
    [OSError] for a port on which a socket listens.  [start] sets
    [SO_REUSEADDR] before it binds, so a port that another socket has bound
    without listening, or left in [TIME_WAIT], is not refused and does not
    count. *)
Definition port_in_use (net : Net) (p : Z) : bool :=
  negb (Z.leb 0 p && Z.leb p 65535)
  || existsb (Z.eqb p) (foreign_ports net)
  || existsb (fun entry => Z.eqb p (snd entry)) (listening net).

(** [sock.close()] *)
Definition socket_close (fd : nat) (net : Net) : Net :=
  mk_Net (next_fd net)
         (filter (fun fd' => negb (Nat.eqb fd' fd)) (open_sockets net))
         (filter (fun entry => negb (Nat.eqb (fst entry) fd)) (listening net))
         (foreign_ports net)
         (next_thread net).

(** [stop]: both the [close] and the [join] sit in a bare [except:], so
    nothing they raise leaves the method; the join waits at most a second and
    changes no attribute. *)
Definition stop (srv : BlenderMCPServer) (net : Net) : BlenderMCPServer * Net :=
  let srv := mk_server (host srv) (port srv) false (socket srv) (server_thread srv) in
  let '(srv, net) :=
    match socket srv with
    | Some fd =>
        (mk_server (host srv) (port srv) (running srv) None (server_thread srv),
         socket_close fd net)
    | None => (srv, net)
    end in
  let srv :=
    match server_thread srv with
    | Some _ => mk_server (host srv) (port srv) (running srv) (socket srv) None
    | None => srv
    end in
  (srv, net).

(** [start]: a second call while running returns at once.  Otherwise the flag
    is set, a socket is created and stored, [SO_REUSEADDR] is set on it, and
    it is bound and put to listen; if the bind raises, the [except Exception]
    clause calls [stop]. *)
Definition start (srv : BlenderMCPServer) (net : Net) : BlenderMCPServer * Net :=
  if running srv then (srv, net)
  else
    let srv := mk_server (host srv) (port srv) true (socket srv) (server_thread srv) in
    let fd := next_fd net in
    let net := mk_Net (S fd) (open_sockets net ++ [fd]) (listening net)
                      (foreign_ports net) (next_thread net) in
    let srv := mk_server (host srv) (port srv) (running srv) (Some fd) (server_thread srv) in
    if port_in_use net (port srv) then stop srv net
    else
      let net := mk_Net (next_fd net) (open_sockets net) (listening net ++ [(fd, port srv)])
                        (foreign_ports net) (next_thread net) in
      let tid := next_thread net in
      (mk_server (host srv) (port srv) (running srv) (socket srv) (Some tid),
       mk_Net (next_fd net) (open_sockets net) (listening net) (foreign_ports net) (S tid)).

(** The listeners this process has bound *)
Definition bound_listeners (net : Net) : nat := length (listening net).

(** ** A stub host *)

(** A scene engine that knows one modifier type and a Polyhaven endpoint that
    refuses connections; used to run the model on concrete commands. *)
Definition stub_host : Host :=
  mk_Host
    (fun v => "<" +:+ type_name v +:+ ">")
    (fun x _ => x)
    stub_json_loads
    stub_json_dumps
    (fun _ _ => Raise (mk_exn ConnectionError "Connection refused"))
    (fun code w =>
       if eq_str code "raise SystemExit" then (Raise (mk_exn SystemExit EmptyString), w)
       else if eq_str code "1/0" then (Raise (mk_exn Exception_ "division by zero"), w)
       else (Return EmptyString, w))
    (fun _ name type_ =>
       if eq_str type_ "SUBSURF" && eq_str name "SUBSURF"
       then Return (mk_Modifier "SUBSURF" "SUBSURF" [("levels", VInt 1)])
       else Raise (mk_exn TypeError "enum not found in ('SUBSURF')"))
    (fun md key v => Return (mk_Modifier (mod_name md) (mod_type md) (dict_set key v (mod_props md))))
    (fun _ _ w => (Return VNone, w))
    "addon".

Definition origin : pyfloat * pyfloat * pyfloat :=
  (S754_zero false, S754_zero false, S754_zero false).

Definition cube : Object := mk_Object "Cube" "MESH" origin [].

(** A scene with the default cube and both capability flags off, as [register]
    declares them. *)
Definition default_world : World :=
  mk_World {[ "Cube" := cube ]} [] ["Collection"]
           (mk_Scene "Scene" 1 1 250 ["Cube"] false false "MAIN_SITE" EmptyString).

(** The same scene with [blendermcp_use_polyhaven] and [blendermcp_use_hyper3d]
    set as given. *)
Definition with_flags (polyhaven hyper3d : bool) (w : World) : World :=
  let s := scene w in
  mk_World (bpy_data_objects w) (bpy_data_materials w) (bpy_data_collections w)
           (mk_Scene (scene_name s) (frame_current s) (frame_start s) (frame_end s)
                     (scene_object_names s) polyhaven hyper3d
                     (blendermcp_hyper3d_mode s) (blendermcp_hyper3d_api_key s)).

(** [{"type": cmd_type, "params": params}] *)
Definition Command (cmd_type : string) (params : list (string * value)) : value :=
  VDict [("type", VStr cmd_type); ("params", VDict params)].

(** ** The rest of the server *)

(** *** [_server_loop] *)

(** What [self.socket.accept()] does on one pass: a client connects, the
    one-second timeout expires, or the call raises. *)
Inductive accept_outcome : Type :=
| Accepted (client : nat)
| AcceptTimeout
| AcceptRaise (e : exn).

(** One pass of [while self.running:] in the listener thread. *)
Record accept_pass : Type := mk_accept_pass {
  listening_now : bool;
  accept : accept_outcome
}.

(** The listener thread is waiting in [accept], has left its loop, or was
    ended by an exception.  [handlers] lists the clients for which a handler
    thread was started, oldest first. *)
Inductive listener_state : Type :=
| Accepting (handlers : list nat)
| Exited (handlers : list nat)
| Died (handlers : list nat) (e : exn).

(** [socket.timeout] is caught and the loop continues; any other [Exception]
    is printed and, after half a second, the loop continues as well.  What
    does not derive from [Exception] passes both [except Exception] clauses
    and ends the thread. *)
Fixpoint _server_loop (handlers : list nat) (passes : list accept_pass) : listener_state :=
  match passes with
  | [] => Accepting handlers
  | pass :: rest =>
      if negb (listening_now pass) then Exited handlers
      else
        match accept pass with
        | Accepted client => _server_loop (handlers ++ [client]) rest
        | AcceptTimeout => _server_loop handlers rest
        | AcceptRaise e =>
            if isinstance_Exception e then _server_loop handlers rest
            else Died handlers e
        end
  end.

(** *** The operators of the panel *)

(** What the operators read and write besides the server: the attribute
    [bpy.types.blendermcp_server], absent until the first start and deleted by
    a stop, and the scene properties [blendermcp_port] and
    [blendermcp_server_running]. *)
Record Addon : Type := mk_Addon {
  blendermcp_server : option BlenderMCPServer;
  blendermcp_port : Z;
  blendermcp_server_running : bool
}.

(** [BLENDERMCP_OT_StartServer.execute]: a server object is created, on the
    port of the scene, only when there is none. *)
Definition StartServer_execute (addon : Addon) (net : Net) : Addon * Net :=
  let server :=
    match blendermcp_server addon with
    | Some server => server
    | None => __init__ "localhost" (blendermcp_port addon)
    end in
  let '(server, net) := start server net in
  (mk_Addon (Some server) (blendermcp_port addon) true, net).

(** [BLENDERMCP_OT_StopServer.execute] *)
Definition StopServer_execute (addon : Addon) (net : Net) : Addon * Net :=
  let net :=
    match blendermcp_server addon with
    | Some server => snd (stop server net)
    | None => net
    end in
  (mk_Addon None (blendermcp_port addon) false, net).

(** [unregister], as far as the server goes: it is stopped and deleted; the
    scene properties are deleted with it. *)
Definition unregister (addon : Addon) (net : Net) : Net :=
  match blendermcp_server addon with
  | Some server => snd (stop server net)
  | None => net
  end.

(** *** [get_hyper3d_status] and the free-trial key *)

Definition RODIN_FREE_TRIAL_KEY : string :=
  "k9TcfFoEhNd9cCPP2guHAHHHkctZHIRhZDywZ1euGUXwihbYLpOjQhofby80NJez".

Definition newline : string := String (ascii_of_byte x0a) EmptyString.

Fixpoint spaces (n : nat) : string :=
  match n with
  | 0 => EmptyString
  | S n => String " " (spaces n)
  end.

(** The triple-quoted messages keep the line breaks and the indentation of the
    source. *)
Definition hyper3d_disabled_message : string :=
  "Hyper3D Rodin integration is currently disabled. To enable it:"
  +:+ newline +:+ spaces 28
  +:+ "1. In the 3D Viewport, find the BlenderMCP panel in the sidebar (press N if hidden)"
  +:+ newline +:+ spaces 28
  +:+ "2. Check the 'Use Hyper3D Rodin 3D model generation' checkbox"
  +:+ newline +:+ spaces 28
  +:+ "3. Restart the connection to Claude".

Definition hyper3d_no_key_message : string :=
  "Hyper3D Rodin integration is currently enabled, but API key is not given. To enable it:"
  +:+ newline +:+ spaces 32
  +:+ "1. In the 3D Viewport, find the BlenderMCP panel in the sidebar (press N if hidden)"
  +:+ newline +:+ spaces 32
  +:+ "2. Keep the 'Use Hyper3D Rodin 3D model generation' checkbox checked"
  +:+ newline +:+ spaces 32
  +:+ "3. Choose the right plaform and fill in the API Key"
  +:+ newline +:+ spaces 32
  +:+ "4. Restart the connection to Claude".

Definition get_hyper3d_status (w : World) : value :=
  let enabled := blendermcp_use_hyper3d (scene w) in
  if enabled then
    if negb (truthy (VStr (blendermcp_hyper3d_api_key (scene w)))) then
      VDict [("enabled", VBool false); ("message", VStr hyper3d_no_key_message)]
    else
      let mode := blendermcp_hyper3d_mode (scene w) in
      let message :=
        "Hyper3D Rodin integration is enabled and ready to use. Mode: " +:+ mode +:+ ". "
        +:+ "Key type: "
        +:+ (if negb (String.eqb (blendermcp_hyper3d_api_key (scene w)) RODIN_FREE_TRIAL_KEY)
             then "private" else "free_trial") in
      VDict [("enabled", VBool true); ("message", VStr message)]
  else
    VDict [("enabled", VBool false); ("message", VStr hyper3d_disabled_message)].

(** [BLENDERMCP_OT_SetFreeTrialHyper3DAPIKey.execute] *)
Definition SetFreeTrialHyper3DAPIKey_execute (w : World) : World :=
  let s := scene w in
  mk_World (bpy_data_objects w) (bpy_data_materials w) (bpy_data_collections w)
           (mk_Scene (scene_name s) (frame_current s) (frame_start s) (frame_end s)
                     (scene_object_names s) (blendermcp_use_polyhaven s)
                     (blendermcp_use_hyper3d s) "MAIN_SITE" RODIN_FREE_TRIAL_KEY).

(** *** [remove_modifier], [delete_object] *)

(** [obj.modifiers.get(key)]: the first modifier of that name; like
    [objects_get], the collection refuses a key that is not a [str]. *)
Definition modifiers_get (mods : list Modifier) (key : value) : result (option Modifier) :=
  match key with
  | VStr name => Return (find (fun md => String.eqb (mod_name md) name) mods)
  | _ => Raise (mk_exn KeyError
                  ("bpy_prop_collection.get(key, ...): key must be a string or tuple of 2 strings, not "
                   +:+ type_name key))
  end.

(** [obj.modifiers.remove(mod)] for the modifier that [modifiers_get] found *)
Fixpoint modifiers_remove (name : string) (mods : list Modifier) : list Modifier :=
  match mods with
  | [] => []
  | md :: rest =>
      if String.eqb (mod_name md) name then rest else md :: modifiers_remove name rest
  end.

(** The object [name] of [bpy.data.objects] with [mods] as its stack. *)
Definition with_modifiers (w : World) (name : string) (obj : Object) (mods : list Modifier)
  : World :=
  mk_World
    (<[name := mk_Object (obj_name obj) (obj_type obj) (obj_location obj) mods]>
       (bpy_data_objects w))
    (bpy_data_materials w) (bpy_data_collections w) (scene w).

Definition remove_modifier (H : Host) (object_name modifier_name : value) (w : World)
  : result value * World :=
  match objects_get w object_name with
  | Raise e => (Raise e, w)
  | Return None =>
      (Raise (mk_exn ValueError ("Object not found: " +:+ py_str H object_name)), w)
  | Return (Some obj) =>
      match modifiers_get (obj_modifiers obj) modifier_name with
      | Raise e => (Raise e, w)
      | Return None =>
          (Raise (mk_exn ValueError ("Modifier not found: " +:+ py_str H modifier_name)), w)
      | Return (Some md) =>
          (Return (VDict [("object", object_name); ("removed", modifier_name)]),
           with_modifiers w (py_str H object_name) obj
                          (modifiers_remove (mod_name md) (obj_modifiers obj)))
      end
  end.

(** [bpy.data.objects.remove(obj, do_unlink=True)]: the object leaves
    [bpy.data.objects] and the scene.  [do_unlink] also clears the references
    that other data hold to the object (a parent link, the target of a
    modifier); an [Object] here carries none of these, so what the removal
    does to the objects that referred to the deleted one is not modelled. *)
Definition objects_remove (w : World) (name : string) : World :=
  let s := scene w in
  mk_World (delete name (bpy_data_objects w))
           (bpy_data_materials w) (bpy_data_collections w)
           (mk_Scene (scene_name s) (frame_current s) (frame_start s) (frame_end s)
                     (filter (fun name' => negb (String.eqb name' name)) (scene_object_names s))
                     (blendermcp_use_polyhaven s) (blendermcp_use_hyper3d s)
                     (blendermcp_hyper3d_mode s) (blendermcp_hyper3d_api_key s)).

Definition delete_object (H : Host) (name : value) (w : World) : result value * World :=
  match objects_get w name with
  | Raise e => (Raise e, w)
  | Return None => (Raise (mk_exn ValueError ("Object not found: " +:+ py_str H name)), w)
  | Return (Some obj) =>
      (Return (VDict [("deleted", name)]), objects_remove w (py_str H name))
  end.

(** *** [poll_rodin_job_status] *)

(** The two requests of the Hyper3D handlers modelled here, each with its
    [Authorization] header. *)
Record Rodin : Type := mk_Rodin {
  (** [requests.post(url, headers={"Authorization": authorization}, json=payload)] *)
  requests_post_json : string -> string -> value -> result http_response;
  (** [requests.get(url, headers={"Authorization": authorization})] *)
  requests_get_auth : string -> string -> result http_response
}.

(** [v[key]] for a [str] literal [key] (messages as CPython 3.11 words them) *)
Definition subscript (v : value) (key : string) : result value :=
  match v with
  | VDict entries =>
      match dict_get key entries with
      | Some item => Return item
      | None => Raise (mk_exn KeyError (quote key))
      end
  | VList _ =>
      Raise (mk_exn TypeError "list indices must be integers or slices, not str")
  | VStr _ => Raise (mk_exn TypeError "string indices must be integers, not 'str'")
  | _ => Raise (mk_exn TypeError (quote (type_name v) +:+ " object is not subscriptable"))
  end.

(** [[i["status"] for i in jobs]], the elements of a list taken in order. *)
Fixpoint status_of_each (items : list value) : result (list value) :=
  match items with
  | [] => Return []
  | i :: rest =>
      status ← subscript i "status";
      others ← status_of_each rest;
      Return (status :: others)
  end.

(** The comprehension over whatever [data["jobs"]] is.  Iterating a [dict]
    gives its keys and iterating a [str] its characters, each a [str] on which
    [["status"]] raises; an empty one gives the empty list. *)
Definition status_list_of (jobs : value) : result (list value) :=
  match jobs with
  | VList items => status_of_each items
  | VDict [] => Return []
  | VDict _ => Raise (mk_exn TypeError "string indices must be integers, not 'str'")
  | VStr s =>
      if String.eqb s EmptyString then Return []
      else Raise (mk_exn TypeError "string indices must be integers, not 'str'")
  | _ => Raise (mk_exn TypeError (quote (type_name jobs) +:+ " object is not iterable"))
  end.

Definition poll_rodin_job_status_main_site (P : Rodin) (subscription_key : value) (w : World)
  : result value :=
  response ← requests_post_json P "https://hyperhuman.deemos.com/api/v2/status"
                                ("Bearer " +:+ blendermcp_hyper3d_api_key (scene w))
                                (VDict [("subscription_key", subscription_key)]);
  data ← response_json response;
  jobs ← subscript data "jobs";
  status_list ← status_list_of jobs;
  Return (VDict [("status_list", VList status_list)]).

Definition poll_rodin_job_status_fal_ai (H : Host) (P : Rodin) (request_id : value) (w : World)
  : result value :=
  response ← requests_get_auth P ("https://queue.fal.run/fal-ai/hyper3d/requests/"
                                  +:+ py_str H request_id +:+ "/status")
                               ("KEY " +:+ blendermcp_hyper3d_api_key (scene w));
  data ← response_json response;
  Return data.

(** The command forwards its keywords to the method the mode selects; that
    method binds them, so which names are accepted depends on the mode. *)
Definition poll_rodin_job_status (H : Host) (P : Rodin) (kwargs : list (string * value))
                                 (w : World) : result value :=
  let mode := blendermcp_hyper3d_mode (scene w) in
  if String.eqb mode "MAIN_SITE" then
    bind_signature "BlenderMCPServer.poll_rodin_job_status_main_site"
                   main_site_signature kwargs ;;
    poll_rodin_job_status_main_site P (kwarg "subscription_key" kwargs VNone) w
  else if String.eqb mode "FAL_AI" then
    bind_signature "BlenderMCPServer.poll_rodin_job_status_fal_ai"
                   fal_ai_signature kwargs ;;
    poll_rodin_job_status_fal_ai H P (kwarg "request_id" kwargs VNone) w
  else Return (VStr "Error: Unknown Hyper3D Rodin mode!").

(** *** Notions used in the statements on the rest of the server *)

(** The accumulated bytes are turned down with [JSONDecodeError]: the one
    failure after which [_handle_client] waits for more. *)
Definition rejected (H : Host) (buffer : list byte) : Prop :=
  exists e, decode_utf8 buffer ≫= json_loads H = Raise e
            /\ isinstance_JSONDecodeError e = true.



(** The clients the listener accepts on the given passes *)
Definition accepted_clients (passes : list accept_pass) : list nat :=
  omap (fun pass => match accept pass with Accepted client => Some client | _ => None end)
       passes.

(** A pass of the accept loop that finds the server running and does not end
    the thread. *)
Definition survivable (pass : accept_pass) : Prop :=
  listening_now pass = true
  /\ match accept pass with AcceptRaise e => isinstance_Exception e = true | _ => True end.

(** Descriptors in use are below the next one to be handed out. *)
Definition fresh_fds (net : Net) : Prop :=
  Forall (fun fd => fd < next_fd net) (open_sockets net)
  /\ Forall (fun entry => fst entry < next_fd net) (listening net).

(** The stub host with a scene engine whose handlers return a Python object
    that has no JSON form. *)
Definition object_host : Host :=
  mk_Host (str_other stub_host) (round_ndigits stub_host) (json_loads stub_host)
          (json_dumps stub_host) (requests_get stub_host) (py_exec stub_host)
          (modifiers_new stub_host) (modifier_setattr stub_host)
          (fun _ _ w => (Return (VObject "<bpy_struct>"), w))
          (module_name stub_host).

(** A lookup that succeeds in a table written as a list is one of its entries;
    each entry is then settled by evaluation. *)
Ltac by_entry Hin :=
  apply elem_of_list_to_map_2 in Hin;
  repeat (apply elem_of_cons in Hin as [Heq | Hin];
          [injection Heq as -> ->; vm_compute; reflexivity |]);
  inversion Hin.

(** *** Reading a returned object; hosts and services for the examples *)

(** [v.get(key)] on a result that is a [dict] *)
Definition field (key : string) (v : value) : option value :=
  match v with
  | VDict entries => dict_get key entries
  | _ => None
  end.

(** The [enabled] entry of a status result is [True]. *)
Definition says_enabled (status : value) : bool :=
  match field "enabled" status with
  | Some (VBool b) => b
  | _ => false
  end.

(** A host like [H] whose [requests.get] is [get]. *)
Definition with_requests_get (H : Host)
           (get : string -> list (string * value) -> result http_response) : Host :=
  mk_Host (str_other H) (round_ndigits H) (json_loads H) (json_dumps H) get
          (py_exec H) (modifiers_new H) (modifier_setattr H) (scene_engine H)
          (module_name H).

(** A host like [H] whose modifiers take only [int] values. *)
Definition int_attributes_host (H : Host) : Host :=
  mk_Host (str_other H) (round_ndigits H) (json_loads H) (json_dumps H) (requests_get H)
          (py_exec H) (modifiers_new H)
          (fun md key v =>
             match v with
             | VInt _ => modifier_setattr H md key v
             | _ => Raise (mk_exn TypeError ("expected an int type, not " +:+ type_name v))
             end)
          (scene_engine H)
          (module_name H).

(** A catalogue of [n] assets under distinct names. *)
Definition numbered_assets (n : nat) : list (string * value) :=
  map (fun i => ("asset_" +:+ NilZero.string_of_uint (Nat.to_uint i), VDict []))
      (seq 0 n).

(** A Polyhaven endpoint that answers every request with [assets]. *)
Definition catalogue_host (assets : value) : Host :=
  with_requests_get stub_host (fun _ _ => Return (mk_response 200 (Return assets))).

(** A Hyper3D service that answers every request with [data] under the status
    code [code]. *)
Definition replying (code : Z) (data : value) : Rodin :=
  mk_Rodin (fun _ _ _ => Return (mk_response code (Return data)))
           (fun _ _ => Return (mk_response code (Return data))).

(** The same scene with [blendermcp_hyper3d_mode] set as given. *)
Definition with_mode (mode : string) (w : World) : World :=
  let s := scene w in
  mk_World (bpy_data_objects w) (bpy_data_materials w) (bpy_data_collections w)
           (mk_Scene (scene_name s) (frame_current s) (frame_start s) (frame_end s)
                     (scene_object_names s) (blendermcp_use_polyhaven s)
                     (blendermcp_use_hyper3d s) mode (blendermcp_hyper3d_api_key s)).

(** ** The properties stated below *)

(** The optional capability sets and the flag that gates each. *)
Inductive capability : Type := Polyhaven | Hyper3D.

Definition capability_handlers (c : capability) : gmap string Handler.t :=
  match c with
  | Polyhaven => polyhaven_handlers
  | Hyper3D => hyper3d_handlers
  end.

Definition capability_flag (c : capability) (w : World) : bool :=
  match c with
  | Polyhaven => blendermcp_use_polyhaven (scene w)
  | Hyper3D => blendermcp_use_hyper3d (scene w)
  end.

(** The configuration panel sets or clears one flag of the scene; nothing else
    changes. *)
Definition set_flag (c : capability) (b : bool) (w : World) : World :=
  match c with
  | Polyhaven => with_flags b (blendermcp_use_hyper3d (scene w)) w
  | Hyper3D => with_flags (blendermcp_use_polyhaven (scene w)) b w
  end.

(** [command.get("params", {})] on the entries of a command *)
Definition params_of (entries : list (string * value)) : value :=
  match dict_get "params" entries with
  | Some params => params
  | None => VDict []
  end.

(** What the [try] block around the handler call makes of its outcome. *)
Definition handler_response (outcome : result value * World) : result value * World :=
  match outcome with
  | (Return res, w') => (Return (success_response res), w')
  | (Raise e, w') =>
      if isinstance_Exception e
      then (Return (error_response (exc_str e)), w')
      else (Raise e, w')
  end.

(** The Response invariant: [status] is ["success"] and [result] is present,
    or [status] is ["error"], [message] is a present [str] and [result] is
    absent. *)
Definition envelope (response : value) : bool :=
  match response with
  | VDict entries =>
      match dict_get "status" entries with
      | Some (VStr status) =>
          if String.eqb status "success" then dict_has "result" entries
          else if String.eqb status "error" then
            match dict_get "message" entries with
            | Some (VStr _) => negb (dict_has "result" entries)
            | _ => false
            end
          else false
      | _ => false
      end
  | _ => false
  end.

(** The names a handler binds by keyword *)
Definition parameters (h : Handler.t) : list string :=
  sig_required (handler_signature h) ++ sig_optional (handler_signature h).

(** A pass of the read loop that finds the server running and reads [data]. *)
Definition read (data : list byte) : iteration := mk_iteration true (RecvData data).

(** ASCII text with each apostrophe standing for a double quote, as bytes. *)
Definition json_bytes (s : string) : list byte :=
  map (fun b => if Byte.eqb b x27 then x22 else b) (list_byte_of_string s).

(** The bytes of [{"type":"add_text","params":{"text":"é"}}]: the two bytes
    [C3 A9] encode the one character of the text. *)
Definition add_text_bytes : list byte :=
  json_bytes "{'type':'add_text','params':{'text':'" ++ [xc3; xa9] ++ json_bytes "'}}".

(** The same bytes as two reads, cut between [C3] and [A9]. *)
Definition first_chunk : list byte :=
  json_bytes "{'type':'add_text','params':{'text':'" ++ [xc3].

Definition second_chunk : list byte := [xa9] ++ json_bytes "'}}".

(** A scene of eleven objects *)
Definition eleven_names : list string :=
  ["A"; "B"; "C"; "D"; "E"; "F"; "G"; "H"; "I"; "J"; "K"].

Definition crowded_world : World :=
  mk_World (list_to_map (map (fun name => (name, mk_Object name "EMPTY" origin []))
                             eleven_names))
           [] ["Collection"]
           (mk_Scene "Scene" 1 1 250 eleven_names false false "MAIN_SITE" EmptyString).

(** The handlers declared with [**kwargs] *)
Definition takes_any_keyword (h : Handler.t) : bool :=
  match h with
  | Handler.add_modifier | Handler.create_rodin_job
  | Handler.poll_rodin_job_status | Handler.import_generated_asset => true
  | _ => false
  end.



(** A lookup that succeeds in a table written as a list is one of its entries;
    each entry is then settled by evaluation. *)
Ltac by_table_entry Hin :=
  apply elem_of_list_to_map_2 in Hin;
  repeat (apply elem_of_cons in Hin as [Heq | Hin];
          [injection Heq as -> ->; split; vm_compute; reflexivity |]);
  inversion Hin.

(** *** The registry *)

Lemma enabled_handlers_lookup (w : World) (name : string) :
  enabled_handlers w !! name =
  match (if blendermcp_use_hyper3d (scene w) then hyper3d_handlers !! name else None) with
  | Some h => Some h
  | None =>
      match (if blendermcp_use_polyhaven (scene w)
             then polyhaven_handlers !! name else None) with
      | Some h => Some h
      | None => base_handlers !! name
      end
  end.
Proof.
  unfold enabled_handlers, dict_update.
  destruct (blendermcp_use_hyper3d (scene w)), (blendermcp_use_polyhaven (scene w));
    rewrite ?lookup_union;
    destruct (hyper3d_handlers !! name), (polyhaven_handlers !! name),
             (base_handlers !! name); reflexivity.
Qed.

(** The three tables share no name. *)
Lemma polyhaven_names (name : string) (h : Handler.t) :
  polyhaven_handlers !! name = Some h ->
  base_handlers !! name = None /\ hyper3d_handlers !! name = None.
Proof. intros Hin. by_table_entry Hin. Qed.

Lemma hyper3d_names (name : string) (h : Handler.t) :
  hyper3d_handlers !! name = Some h ->
  base_handlers !! name = None /\ polyhaven_handlers !! name = None.
Proof. intros Hin. by_table_entry Hin. Qed.

(** A capability name resolves exactly when its flag is set. *)
Lemma capability_lookup (c : capability) (w : World) (name : string) (h : Handler.t) :
  capability_handlers c !! name = Some h ->
  enabled_handlers w !! name = if capability_flag c w then Some h else None.
Proof.
  intros Hin. rewrite enabled_handlers_lookup.
  destruct c; simpl in Hin; unfold capability_flag.
  - destruct (polyhaven_names _ _ Hin) as [Hbase Hhyper].
    rewrite Hhyper, Hin, Hbase.
    destruct (blendermcp_use_hyper3d (scene w)), (blendermcp_use_polyhaven (scene w));
      reflexivity.
  - destruct (hyper3d_names _ _ Hin) as [Hbase Hpoly].
    rewrite Hpoly, Hin, Hbase.
    destruct (blendermcp_use_hyper3d (scene w)), (blendermcp_use_polyhaven (scene w));
      reflexivity.
Qed.

(** A name in none of the three tables is never enabled. *)
Lemma never_registered_not_enabled (w : World) (name : string) :
  base_handlers !! name = None ->
  polyhaven_handlers !! name = None ->
  hyper3d_handlers !! name = None ->
  enabled_handlers w !! name = None.
Proof.
  intros Hbase Hpoly Hhyper. rewrite enabled_handlers_lookup, Hbase, Hpoly, Hhyper.
  destruct (blendermcp_use_hyper3d (scene w)), (blendermcp_use_polyhaven (scene w));
    reflexivity.
Qed.

(** *** Dispatch, case by case *)

Lemma dispatch_unknown (H : Host) (entries : list (string * value)) (cmd_type : string)
      (w : World) :
  dict_get "type" entries = Some (VStr cmd_type) ->
  enabled_handlers w !! cmd_type = None ->
  _execute_command_internal H (VDict entries) w =
  (Return (error_response ("Unknown command type: " +:+ cmd_type)), w).
Proof.
  intros Htype Hnone. unfold _execute_command_internal, command_get, handlers_get.
  rewrite Htype, Hnone. reflexivity.
Qed.

Lemma dispatch_known (H : Host) (entries : list (string * value)) (cmd_type : string)
      (h : Handler.t) (w : World) :
  dict_get "type" entries = Some (VStr cmd_type) ->
  enabled_handlers w !! cmd_type = Some h ->
  _execute_command_internal H (VDict entries) w =
  handler_response (call_kwargs H h (params_of entries) w).
Proof.
  intros Htype Hsome. unfold _execute_command_internal, command_get, handlers_get.
  rewrite Htype, Hsome. unfold params_of, handler_response.
  destruct (call_kwargs H h _ w) as [[res | e] w']; reflexivity.
Qed.

(** [execute_command] only adds a second [except Exception] around the
    internal dispatch. *)
Lemma execute_command_eq (H : Host) (command : value) (w : World) :
  execute_command H command w =
  match _execute_command_internal H command w with
  | (Return response, w') => (Return response, w')
  | (Raise e, w') =>
      if isinstance_Exception e
      then (Return (error_response (exc_str e)), w')
      else (Raise e, w')
  end.
Proof.
  unfold execute_command.
  destruct (_execute_command_internal H command w) as [[response | e] w']; reflexivity.
Qed.

(** Whatever dispatch returns is one of the two Response shapes, and what it
    lets through does not derive from [Exception]. *)
Lemma internal_shape (H : Host) (command : value) (w : World) :
  match fst (_execute_command_internal H command w) with
  | Return response =>
      (exists res, response = success_response res)
      \/ (exists message, response = error_response message)
  | Raise e =>
      isinstance_Exception e = true
      \/ exists h params w0, fst (call_kwargs H h params w0) = Raise e
  end.
Proof.
  unfold _execute_command_internal.
  destruct (command_get command "type" VNone) as [cmd_type | e] eqn:Htype.
  2:{ simpl. left. unfold command_get in Htype.
      destruct command; try discriminate; injection Htype as <-; reflexivity. }
  destruct (command_get command "params" (VDict [])) as [params | e] eqn:Hparams.
  2:{ simpl. left. unfold command_get in Hparams.
      destruct command; try discriminate; injection Hparams as <-; reflexivity. }
  destruct (handlers_get (enabled_handlers w) cmd_type) as [[h |] | e] eqn:Hget.
  - destruct (call_kwargs H h params w) as [[res | e] w'] eqn:Hcall.
    + simpl. left. eexists. reflexivity.
    + destruct (isinstance_Exception e) eqn:He; simpl.
      * right. eexists. reflexivity.
      * right. exists h, params, w. rewrite Hcall. reflexivity.
  - simpl. right. eexists. reflexivity.
  - simpl. left. unfold handlers_get in Hget.
    destruct cmd_type; try discriminate; injection Hget as <-; reflexivity.
Qed.



Lemma envelope_success (res : value) : envelope (success_response res) = true.
Proof. reflexivity. Qed.

Lemma envelope_error (message : string) : envelope (error_response message) = true.
Proof. reflexivity. Qed.





(** C2.  A command whose type is a name absent from the handler set enabled at
    the call is answered with the error Response that names it; the call
    returns and leaves the world as it was. *)
Theorem unknown_command_error_response
        (H : Host) (entries : list (string * value)) (cmd_type : string) (w : World) :
  dict_get "type" entries = Some (VStr cmd_type) ->
  enabled_handlers w !! cmd_type = None ->
  execute_command H (VDict entries) w
  = (Return (VDict [("status", VStr "error");
                    ("message", VStr ("Unknown command type: " +:+ cmd_type))]), w).
Proof.
  intros Htype Hnone.
  rewrite execute_command_eq, (dispatch_unknown H entries cmd_type w Htype Hnone).
  reflexivity.
Qed.

(** The two ways a name is absent: it is in no table ([unknown_cmd]), or only
    in the table of a capability whose flag is off. *)
Lemma unknown_command_error_response_witness :
  (dict_get "type" [("type", VStr "unknown_cmd"); ("params", VDict [])]
   = Some (VStr "unknown_cmd")
   /\ enabled_handlers (with_flags true true default_world) !! "unknown_cmd" = None
   /\ execute_command stub_host (Command "unknown_cmd" []) (with_flags true true default_world)
      = (Return (VDict [("status", VStr "error");
                        ("message", VStr "Unknown command type: unknown_cmd")]),
         with_flags true true default_world))
  /\ (polyhaven_handlers !! "search_polyhaven_assets" = Some Handler.search_polyhaven_assets
      /\ enabled_handlers (with_flags false true default_world) !! "search_polyhaven_assets"
         = None
      /\ execute_command stub_host (Command "search_polyhaven_assets" [])
                         (with_flags false true default_world)
         = (Return (VDict [("status", VStr "error");
                           ("message",
                            VStr "Unknown command type: search_polyhaven_assets")]),
            with_flags false true default_world)).
Proof.
  split.
  - split; [reflexivity |]. split; [vm_compute; reflexivity |].
    apply (unknown_command_error_response stub_host _ "unknown_cmd");
      [reflexivity | vm_compute; reflexivity].
  - split; [vm_compute; reflexivity |]. split; [vm_compute; reflexivity |].
    apply (unknown_command_error_response stub_host _ "search_polyhaven_assets");
      [reflexivity | vm_compute; reflexivity].
Defined.

(** The outer [except Exception] of [execute_command] has nothing left to
    catch once the [try] block of dispatch has answered. *)
Lemma handler_response_passes (outcome : result value * World) :
  match handler_response outcome with
  | (Return response, w') => (Return response, w')
  | (Raise e, w') =>
      if isinstance_Exception e
      then (Return (error_response (exc_str e)), w')
      else (Raise e, w')
  end = handler_response outcome.
Proof.
  destruct outcome as [[res | e] w']; simpl; [reflexivity |].
  destruct (isinstance_Exception e) eqn:He; simpl; [reflexivity |].
  rewrite He. reflexivity.
Qed.

Lemma capability_flag_set_flag (c : capability) (b : bool) (w : World) :
  capability_flag c (set_flag c b w) = b.
Proof. destruct c; reflexivity. Qed.

(** C3.  Dispatch reads the two flags from the scene it is called on: a name
    of a capability set resolves to its handler when the flag of that set is
    on at the call, and gets the unknown-command Response when it is off.
    Clearing or setting the flag, and nothing else, between two calls switches
    between the two. *)
Theorem capability_flag_read_at_dispatch
        (H : Host) (c : capability) (entries : list (string * value))
        (cmd_type : string) (h : Handler.t) (w : World) :
  dict_get "type" entries = Some (VStr cmd_type) ->
  capability_handlers c !! cmd_type = Some h ->
  _execute_command_internal H (VDict entries) w
  = (if capability_flag c w
     then handler_response (call_kwargs H h (params_of entries) w)
     else (Return (error_response ("Unknown command type: " +:+ cmd_type)), w))
  /\ execute_command H (VDict entries) w
     = (if capability_flag c w
        then handler_response (call_kwargs H h (params_of entries) w)
        else (Return (error_response ("Unknown command type: " +:+ cmd_type)), w))
  /\ execute_command H (VDict entries) (set_flag c false w)
     = (Return (error_response ("Unknown command type: " +:+ cmd_type)), set_flag c false w)
  /\ execute_command H (VDict entries) (set_flag c true w)
     = handler_response (call_kwargs H h (params_of entries) (set_flag c true w)).
Proof.
  intros Htype Hcap.
  assert (Hat : forall w0,
             _execute_command_internal H (VDict entries) w0
             = (if capability_flag c w0
                then handler_response (call_kwargs H h (params_of entries) w0)
                else (Return (error_response ("Unknown command type: " +:+ cmd_type)), w0))).
  { intros w0. pose proof (capability_lookup c w0 cmd_type h Hcap) as Hlook.
    destruct (capability_flag c w0).
    - apply (dispatch_known H entries cmd_type h w0 Htype Hlook).
    - apply (dispatch_unknown H entries cmd_type w0 Htype Hlook). }
  assert (Hexec : forall w0,
             execute_command H (VDict entries) w0
             = (if capability_flag c w0
                then handler_response (call_kwargs H h (params_of entries) w0)
                else (Return (error_response ("Unknown command type: " +:+ cmd_type)), w0))).
  { intros w0. rewrite execute_command_eq, Hat.
    destruct (capability_flag c w0); [| reflexivity].
    apply handler_response_passes. }
  split; [apply Hat | split; [apply Hexec | split]].
  - rewrite Hexec, capability_flag_set_flag. reflexivity.
  - rewrite Hexec, capability_flag_set_flag. reflexivity.
Qed.

Lemma capability_flag_read_at_dispatch_witness :
  let command := [("type", VStr "search_polyhaven_assets"); ("params", VDict [])] in
  dict_get "type" command = Some (VStr "search_polyhaven_assets")
  /\ capability_handlers Polyhaven !! "search_polyhaven_assets"
     = Some Handler.search_polyhaven_assets
  /\ execute_command stub_host (VDict command) (set_flag Polyhaven false default_world)
     = (Return (error_response "Unknown command type: search_polyhaven_assets"),
        set_flag Polyhaven false default_world)
  /\ execute_command stub_host (VDict command) (set_flag Polyhaven true default_world)
     = (Return (success_response (VDict [("error", VStr "Connection refused")])),
        set_flag Polyhaven true default_world).
Proof.
  intros command.
  assert (Htype : dict_get "type" command = Some (VStr "search_polyhaven_assets"))
    by reflexivity.
  assert (Hcap : capability_handlers Polyhaven !! "search_polyhaven_assets"
                 = Some Handler.search_polyhaven_assets) by (vm_compute; reflexivity).
  pose proof (capability_flag_read_at_dispatch
                stub_host Polyhaven command "search_polyhaven_assets"
                Handler.search_polyhaven_assets default_world Htype Hcap)
    as (_ & _ & Hoff & Hon).
  split; [exact Htype |]. split; [exact Hcap |]. split; [exact Hoff |].
  rewrite Hon. vm_compute. reflexivity.
Defined.

(** What the peer has been sent after [sendall]: the text, if it is still
    connected. *)
Lemma sent_after_sendall (client : Client) (text : string) :
  sent (snd (sendall client text))
  = if peer_connected client then (sent client ++ [text])%list else sent client.
Proof. unfold sendall. destruct (peer_connected client); reflexivity. Qed.

(** The wrapper sends at most one text: the serialisation of the Response of
    dispatch, or of the error Response it builds when [json.dumps] or dispatch
    raised. *)
Lemma execute_wrapper_sent (H : Host) (command : value) (w : World) (client : Client) :
  let client' := snd (execute_wrapper H command w client) in
  sent client' = sent client
  \/ exists response text,
      (fst (execute_command H command w) = Return response
       \/ exists message, response = error_response message)
      /\ json_dumps H response = Return text
      /\ sent client' = (sent client ++ [text])%list.
Proof.
  unfold execute_wrapper.
  destruct (execute_command H command w) as [[response | e] w']; simpl.
  - destruct (json_dumps H response) as [text | e] eqn:Hjson.
    + pose proof (sent_after_sendall client text) as Hsent.
      destruct (sendall client text) as [r client']. simpl in *. rewrite Hsent.
      destruct (peer_connected client); [| left; reflexivity].
      right. exists response, text. auto.
    + destruct (isinstance_Exception e); [| left; reflexivity].
      destruct (json_dumps H (error_response (exc_str e))) as [text | e'] eqn:Hjson';
        [| left; reflexivity].
      pose proof (sent_after_sendall client text) as Hsent.
      destruct (sendall client text) as [r client']. simpl in *. rewrite Hsent.
      destruct (peer_connected client); [| left; reflexivity].
      right. exists (error_response (exc_str e)), text. eauto.
  - destruct (isinstance_Exception e); [| left; reflexivity].
    destruct (json_dumps H (error_response (exc_str e))) as [text | e'] eqn:Hjson';
      [| left; reflexivity].
    pose proof (sent_after_sendall client text) as Hsent.
    destruct (sendall client text) as [r client']. simpl in *. rewrite Hsent.
    destruct (peer_connected client); [| left; reflexivity].
    right. exists (error_response (exc_str e)), text. eauto.
Qed.

(** C4.  Whatever dispatch returns is [{"status": "success", "result": r}] or
    [{"status": "error", "message": m}], so it satisfies the Response
    invariant; what dispatch does not return is an exception outside
    [Exception] passing through.  The fallback of [execute_wrapper] builds the
    error shape too: every text the wrapper sends is the serialisation of a
    Response that satisfies the invariant. *)
Theorem dispatch_response_envelope (H : Host) (command : value) (w : World) :
  match fst (execute_command H command w) with
  | Return response =>
      ((exists res, response = VDict [("status", VStr "success"); ("result", res)])
       \/ (exists message,
              response = VDict [("status", VStr "error"); ("message", VStr message)]))
      /\ envelope response = true
  | Raise e => isinstance_Exception e = false
  end
  /\ forall client : Client,
      let client' := snd (execute_wrapper H command w client) in
      sent client' = sent client
      \/ exists response text,
          envelope response = true
          /\ json_dumps H response = Return text
          /\ sent client' = (sent client ++ [text])%list.
Proof.
  assert (Hfirst :
            match fst (execute_command H command w) with
            | Return response =>
                ((exists res, response = success_response res)
                 \/ (exists message, response = error_response message))
                /\ envelope response = true
            | Raise e => isinstance_Exception e = false
            end).
  { rewrite execute_command_eq.
    pose proof (internal_shape H command w) as Hshape.
    destruct (_execute_command_internal H command w) as [[response | e] w']; simpl in *.
    - split; [exact Hshape |].
      destruct Hshape as [[res ->] | [message ->]]; reflexivity.
    - destruct (isinstance_Exception e) eqn:He; simpl; [| exact He].
      split; [right; eexists; reflexivity | reflexivity]. }
  split; [exact Hfirst |].
  intros client.
  destruct (execute_wrapper_sent H command w client)
    as [Hsame | (response & text & Hfrom & Hjson & Hsent)]; [left; exact Hsame |].
  right. exists response, text. split; [| auto].
  destruct Hfrom as [Hret | [message ->]]; [| reflexivity].
  rewrite Hret in Hfirst. apply Hfirst.
Qed.

(** *** The read loop *)

(** One pass over a non-empty read, by the outcome of the decode. *)
Lemma loop_step (H : Host) (buffer : list byte) (submitted : list value)
      (data : list byte) (rest : list iteration) :
  data <> [] ->
  _handle_client_loop H buffer submitted (read data :: rest)
  = match decode_utf8 (buffer ++ data) ≫= json_loads H with
    | Return command => _handle_client_loop H [] (submitted ++ [command]) rest
    | Raise e =>
        if isinstance_JSONDecodeError e
        then _handle_client_loop H (buffer ++ data) submitted rest
        else Closed submitted
    end.
Proof. intros Hdata. destruct data as [| b data]; [congruence | reflexivity]. Qed.

(** Where the loop does what is asked of it: a buffer on which [json.loads]
    raises [JSONDecodeError] is kept, nothing is submitted, and the next read
    is appended to it. *)
Lemma json_error_keeps_buffer (H : Host) (buffer : list byte) (submitted : list value)
      (data : list byte) (rest : list iteration) (e : exn) :
  data <> [] ->
  decode_utf8 (buffer ++ data) ≫= json_loads H = Raise e ->
  isinstance_JSONDecodeError e = true ->
  _handle_client_loop H buffer submitted (read data :: rest)
  = _handle_client_loop H (buffer ++ data) submitted rest.
Proof.
  intros Hdata Hdecode He. rewrite (loop_step H buffer submitted data rest Hdata).
  rewrite Hdecode, He. reflexivity.
Qed.

(** Two reads whose first leaves [json.loads] with a [JSONDecodeError] decode
    the one command of their concatenation and leave the buffer empty. *)
Lemma two_chunks_same_as_one (H : Host) (c1 c2 : list byte) (command : value) (e : exn) :
  c1 <> [] -> c2 <> [] ->
  decode_utf8 c1 ≫= json_loads H = Raise e ->
  isinstance_JSONDecodeError e = true ->
  decode_utf8 (c1 ++ c2) ≫= json_loads H = Return command ->
  _handle_client H [read c1; read c2] = Reading [] [command]
  /\ _handle_client H [read (c1 ++ c2)] = Reading [] [command].
Proof.
  intros H1 H2 Hfirst He Hwhole. unfold _handle_client. split.
  - rewrite (json_error_keeps_buffer H [] [] c1 [read c2] e H1 Hfirst He).
    rewrite (loop_step H ([] ++ c1)%list [] c2 [] H2). simpl app. rewrite Hwhole. reflexivity.
  - assert (H12 : (c1 ++ c2)%list <> []) by (destruct c1; [congruence | discriminate]).
    rewrite (loop_step H [] [] (c1 ++ c2)%list [] H12). simpl app. rewrite Hwhole.
    reflexivity.
Qed.

(** Only one command is decoded per read: bytes that follow a complete
    command in a later read start the next buffer, and stay there while
    [json.loads] raises [JSONDecodeError] on them. *)
Lemma trailing_bytes_stay_buffered (H : Host) (c1 c2 : list byte) (command : value)
      (e : exn) :
  c1 <> [] -> c2 <> [] ->
  decode_utf8 c1 ≫= json_loads H = Return command ->
  decode_utf8 c2 ≫= json_loads H = Raise e ->
  isinstance_JSONDecodeError e = true ->
  _handle_client H [read c1; read c2] = Reading c2 [command].
Proof.
  intros H1 H2 Hfirst Hsecond He. unfold _handle_client.
  rewrite (loop_step H [] [] c1 [read c2] H1). simpl app. rewrite Hfirst.
  rewrite (loop_step H [] [command] c2 [] H2). simpl app.
  rewrite Hsecond, He. reflexivity.
Qed.

(** A read after which the buffer is not well-formed UTF-8 ends the loop:
    [UnicodeDecodeError] is not a [JSONDecodeError], so it reaches the outer
    [except Exception], which breaks. *)
Lemma unicode_error_closes (H : Host) (buffer : list byte) (submitted : list value)
      (data : list byte) (rest : list iteration) :
  data <> [] ->
  utf8_valid (buffer ++ data) = false ->
  _handle_client_loop H buffer submitted (read data :: rest) = Closed submitted.
Proof.
  intros Hdata Hvalid. rewrite (loop_step H buffer submitted data rest Hdata).
  unfold decode_utf8. rewrite Hvalid. reflexivity.
Qed.

(** C5, at the input where the code departs from it.  The bytes of the command
    [{"type":"add_text","params":{"text":"é"}}] arrive in two reads cut inside
    the two-byte character.  Read whole, they reach [json.loads], and what it
    decodes is submitted with the buffer emptied.  Read in two chunks, the
    first is not decodable as UTF-8: the handler leaves the loop and closes
    the connection, and no command is decoded. *)
Theorem split_inside_character_closes_connection (H : Host) :
  (first_chunk ++ second_chunk)%list = add_text_bytes
  /\ utf8_valid add_text_bytes = true
  /\ _handle_client H [read add_text_bytes]
     = match json_loads H (string_of_list_byte add_text_bytes) with
       | Return command => Reading [] [command]
       | Raise e =>
           if isinstance_JSONDecodeError e then Reading add_text_bytes [] else Closed []
       end
  /\ _handle_client H [read first_chunk; read second_chunk] = Closed [].
Proof.
  split; [reflexivity |]. split; [vm_compute; reflexivity |]. split.
  - unfold _handle_client.
    rewrite (loop_step H [] [] add_text_bytes []) by discriminate.
    simpl app. unfold decode_utf8.
    replace (utf8_valid add_text_bytes) with true by (vm_compute; reflexivity).
    simpl. destruct (json_loads H (string_of_list_byte add_text_bytes)) as [command | e];
      [reflexivity |].
    destruct (isinstance_JSONDecodeError e); reflexivity.
  - unfold _handle_client.
    apply unicode_error_closes; [discriminate | vm_compute; reflexivity].
Qed.

(** C6, at inputs where the code departs from it.  A buffer that is not
    well-formed UTF-8, be it the truncated prefix of a command or bytes that
    no continuation can repair, is not retained: the handler leaves the loop
    and closes the connection, and the reads that follow are never appended. *)
Theorem undecodable_buffer_closes_connection (H : Host) (rest : list iteration) :
  _handle_client H (read first_chunk :: rest) = Closed []
  /\ _handle_client H (read [xff] :: rest) = Closed [].
Proof.
  unfold _handle_client. split.
  - apply unicode_error_closes; [discriminate | vm_compute; reflexivity].
  - apply unicode_error_closes; [discriminate | vm_compute; reflexivity].
Qed.

(** *** Argument binding *)



Lemma takes_any_keyword_signature (h : Handler.t) :
  sig_var_keyword (handler_signature h) = takes_any_keyword h.
Proof. destruct h; reflexivity. Qed.



Lemma check_keywords_of_TypeError (qual : string) (sg : signature)
      (kwargs : list (string * value)) (e : exn) :
  check_keywords_of qual sg kwargs = Raise e -> exc_type e = TypeError.
Proof.
  induction kwargs as [| [key v] rest IH]; cbn [check_keywords_of]; [discriminate |].
  destruct (String.eqb key "self"); [intros [= <-]; reflexivity |].
  destruct (existsb _ _ || _); [exact IH | intros [= <-]; reflexivity].
Qed.

Lemma bind_signature_TypeError (qual : string) (sg : signature)
      (kwargs : list (string * value)) (e : exn) :
  bind_signature qual sg kwargs = Raise e -> exc_type e = TypeError.
Proof.
  unfold bind_signature.
  destruct (check_keywords_of qual sg kwargs) as [[] | e'] eqn:Hcheck; cbn.
  - destruct (filter _ _); [discriminate | intros [= <-]; reflexivity].
  - intros [= <-]. exact (check_keywords_of_TypeError _ _ _ _ Hcheck).
Qed.










(** *** Collaborator failures *)


(** Dispatch of [{"type": cmd_type, "params": kwargs}] for an enabled name *)
Lemma execute_Command (H : Host) (cmd_type : string) (kwargs : list (string * value))
      (h : Handler.t) (w : World) :
  enabled_handlers w !! cmd_type = Some h ->
  execute_command H (Command cmd_type kwargs) w
  = handler_response (call_kwargs H h (VDict kwargs) w).
Proof.
  intros Hsome. unfold Command.
  rewrite execute_command_eq.
  rewrite (dispatch_known H [("type", VStr cmd_type); ("params", VDict kwargs)]
                          cmd_type h w eq_refl Hsome).
  apply handler_response_passes.
Qed.








(** *** Lifecycle *)

(** [stop] leaves the server stopped, from any state. *)
Lemma stop_stopped (srv : BlenderMCPServer) (net : Net) :
  running (fst (stop srv net)) = false
  /\ socket (fst (stop srv net)) = None
  /\ server_thread (fst (stop srv net)) = None.
Proof.
  unfold stop. destruct srv as [h p r [fd |] [tid |]]; simpl; auto.
Qed.

(** [stop] on a stopped server changes nothing. *)
Lemma stop_noop (srv : BlenderMCPServer) (net : Net) :
  running srv = false -> socket srv = None -> server_thread srv = None ->
  stop srv net = (srv, net).
Proof.
  destruct srv as [h p r s t]; simpl. intros -> -> ->. reflexivity.
Qed.

(** C9.  [start] on a running server returns at once: server and sockets are
    as before, so a start that bound one listener followed by a second start
    leaves that one listener and the server running.  [stop] on a stopped
    server changes nothing; from any state [stop] returns with the server
    stopped, and a second [stop] changes nothing more. *)
Theorem lifecycle_idempotent (srv : BlenderMCPServer) (net : Net) :
  (running srv = true -> start srv net = (srv, net))
  /\ (running srv = false -> port_in_use net (port srv) = false ->
      let '(srv1, net1) := start srv net in
      running srv1 = true
      /\ bound_listeners net1 = S (bound_listeners net)
      /\ start srv1 net1 = (srv1, net1))
  /\ (running srv = false -> socket srv = None -> server_thread srv = None ->
      stop srv net = (srv, net))
  /\ (let '(srv1, net1) := stop srv net in
      running srv1 = false /\ socket srv1 = None /\ server_thread srv1 = None
      /\ stop srv1 net1 = (srv1, net1)).
Proof.
  split; [| split; [| split]].
  - intros Hrun. unfold start. rewrite Hrun. reflexivity.
  - intros Hrun Hfree. unfold start. rewrite Hrun. simpl.
    assert (Hfree' : port_in_use
                       (mk_Net (S (next_fd net)) (open_sockets net ++ [next_fd net])
                               (listening net) (foreign_ports net) (next_thread net))
                       (port srv) = false) by exact Hfree.
    rewrite Hfree'. simpl. split; [reflexivity |]. split; [| reflexivity].
    unfold bound_listeners. simpl. rewrite length_app. simpl. lia.
  - apply stop_noop.
  - pose proof (stop_stopped srv net) as (Hrun & Hsock & Hthread).
    destruct (stop srv net) as [srv1 net1]. simpl in *.
    repeat split; try assumption.
    apply stop_noop; assumption.
Qed.

Lemma lifecycle_idempotent_witness :
  let srv := __init__ "localhost" 9876 in
  let net := mk_Net 3 [] [] [] 0 in
  let running_srv := mk_server "localhost" 9876 true (Some 3) (Some 0) in
  let running_net := mk_Net 4 [3] [(3, 9876%Z)] [] 1 in
  running srv = false
  /\ port_in_use net (port srv) = false
  /\ socket srv = None
  /\ server_thread srv = None
  /\ start srv net = (running_srv, running_net)
  /\ running running_srv = true
  /\ start running_srv running_net = (running_srv, running_net)
  /\ bound_listeners running_net = 1
  /\ stop srv net = (srv, net)
  /\ stop running_srv running_net = (srv, mk_Net 4 [] [] [] 1).
Proof.
  intros srv net running_srv running_net.
  pose proof (lifecycle_idempotent srv net) as (_ & Hstart & Hstop & _).
  pose proof (lifecycle_idempotent running_srv running_net) as (Hagain & _).
  split; [reflexivity |]. split; [reflexivity |]. split; [reflexivity |].
  split; [reflexivity |]. split; [reflexivity |]. split; [reflexivity |].
  split; [exact (Hagain eq_refl) |]. split; [reflexivity |].
  split; [exact (Hstop eq_refl eq_refl eq_refl) | reflexivity].
Defined.

(** *** [get_scene_info] *)

(** The loop appends the entries of the objects before index 10, in order. *)
Lemma objects_loop_take (H : Host) (objs : list Object) (i : nat) (acc : list value) :
  objects_loop H i objs acc = (acc ++ map (obj_info H) (take (10 - i) objs))%list.
Proof.
  revert i acc. induction objs as [| obj rest IH]; intros i acc; cbn [objects_loop].
  - rewrite take_nil. cbn [map]. rewrite app_nil_r. reflexivity.
  - destruct (Nat.leb 10 i) eqn:Hcmp.
    + apply Nat.leb_le in Hcmp. replace (10 - i) with 0 by lia.
      rewrite take_0. cbn [map]. rewrite app_nil_r. reflexivity.
    + apply Nat.leb_gt in Hcmp. rewrite IH.
      replace (10 - i) with (S (10 - S i)) by lia.
      rewrite firstn_cons, map_cons, <- app_assoc. reflexivity.
Qed.

(** C10.  [get_scene_info] lists the first ten objects of the scene, in scene
    order, and counts them all: [objects] has [min 10 n] entries and
    [object_count] is [n], so the count exceeds the length of the list as soon
    as the scene has more than ten objects.  Dispatch returns that result
    under status ["success"]. *)
Theorem get_scene_info_lists_first_ten (H : Host) (w : World) :
  let n := length (scene_objects w) in
  exists entries objects,
    get_scene_info H w = VDict entries
    /\ dict_get "objects" entries = Some (VList objects)
    /\ objects = map (obj_info H) (take 10 (scene_objects w))
    /\ length objects = Nat.min 10 n
    /\ length objects <= 10
    /\ dict_get "object_count" entries = Some (VInt (Z.of_nat n))
    /\ (10 < n -> (Z.of_nat (length objects) < Z.of_nat n)%Z)
    /\ execute_command H (Command "get_scene_info" []) w
       = (Return (success_response (VDict entries)), w).
Proof.
  intros n. eexists. eexists.
  split; [reflexivity |].
  split; [reflexivity |].
  assert (Hloop : objects_loop H 0 (scene_objects w) []
                  = map (obj_info H) (take 10 (scene_objects w)))
    by (rewrite objects_loop_take; reflexivity).
  assert (Hlen : length (objects_loop H 0 (scene_objects w) []) = Nat.min 10 n)
    by (rewrite Hloop, length_map, length_take; reflexivity).
  split; [exact Hloop |]. split; [exact Hlen |].
  split; [rewrite Hlen; lia |]. split; [reflexivity |].
  split; [intros Hmore; rewrite Hlen; lia |].
  apply (execute_Command H "get_scene_info" [] Handler.get_scene_info w).
  rewrite enabled_handlers_lookup.
  replace (hyper3d_handlers !! "get_scene_info") with (@None Handler.t)
    by (vm_compute; reflexivity).
  replace (polyhaven_handlers !! "get_scene_info") with (@None Handler.t)
    by (vm_compute; reflexivity).
  replace (base_handlers !! "get_scene_info") with (Some Handler.get_scene_info)
    by (vm_compute; reflexivity).
  destruct (blendermcp_use_hyper3d (scene w)), (blendermcp_use_polyhaven (scene w));
    reflexivity.
Qed.

Lemma get_scene_info_lists_first_ten_witness :
  exists entries objects,
    get_scene_info stub_host crowded_world = VDict entries
    /\ dict_get "objects" entries = Some (VList objects)
    /\ length (scene_objects crowded_world) = 11
    /\ length objects = 10
    /\ dict_get "object_count" entries = Some (VInt 11)
    /\ (Z.of_nat (length objects) < 11)%Z.
Proof.
  destruct (get_scene_info_lists_first_ten stub_host crowded_world)
    as (entries & objects & Hinfo & Hobjects & _ & Hlen & _ & Hcount & Hmore & _).
  exists entries, objects.
  assert (Hn : length (scene_objects crowded_world) = 11) by (vm_compute; reflexivity).
  rewrite Hn in Hlen, Hcount, Hmore.
  split; [exact Hinfo |]. split; [exact Hobjects |]. split; [exact Hn |].
  split; [exact Hlen |]. split; [exact Hcount |].
  apply Hmore. lia.
Defined.

(** *** The model run on concrete requests *)

(** The bytes [{"type":"unknown_cmd","params":{}}] are read in one piece,
    decoded and submitted; the timer answers
    [{"status": "error", "message": "Unknown command type: unknown_cmd"}] in
    the layout of [json.dumps]. *)
Example unknown_cmd_end_to_end :
  _handle_client stub_host [read (json_bytes "{'type':'unknown_cmd','params':{}}")]
  = Reading [] [Command "unknown_cmd" []]
  /\ execute_wrapper stub_host (Command "unknown_cmd" []) default_world (mk_Client true [])
     = (Return tt, default_world,
        mk_Client true
          [string_of_list_byte
             (json_bytes
                "{'status': 'error', 'message': 'Unknown command type: unknown_cmd'}")]).
Proof. split; vm_compute; reflexivity. Qed.

(** Two commands decoded before the first timer runs: both timers execute the
    second command, the modifier of the first is never added, and the peer
    receives the answer to the second command twice. *)
Example second_command_overtakes_first :
  let answer := string_of_list_byte
                  (json_bytes
                     "{'status': 'error', 'message': 'Unknown command type: unknown_cmd'}") in
  run_timers stub_host
             [Decoded (Command "add_modifier" [("object_name", VStr "Cube");
                                               ("modifier_type", VStr "SUBSURF")]);
              Decoded (Command "unknown_cmd" []);
              TimerFires; TimerFires]
             None 0 default_world (mk_Client true [])
  = (Return tt, default_world, mk_Client true [answer; answer]).
Proof. vm_compute. reflexivity. Qed.

(** The same commands, each executed before the next is decoded. *)
Example commands_answered_in_turn :
  let w' := with_modifier default_world "Cube" cube
                          (mk_Modifier "SUBSURF" "SUBSURF" [("levels", VInt 1)]) in
  fst (fst (run_timers stub_host
              [Decoded (Command "add_modifier" [("object_name", VStr "Cube");
                                                ("modifier_type", VStr "SUBSURF")]);
               TimerFires;
               Decoded (Command "unknown_cmd" []);
               TimerFires]
              None 0 default_world (mk_Client true [])))
  = Return tt
  /\ snd (fst (run_timers stub_host
                  [Decoded (Command "add_modifier" [("object_name", VStr "Cube");
                                                    ("modifier_type", VStr "SUBSURF")]);
                   TimerFires;
                   Decoded (Command "unknown_cmd" []);
                   TimerFires]
                  None 0 default_world (mk_Client true [])))
     = w'.
Proof. split; vm_compute; reflexivity. Qed.

(** A command cut inside its text arrives whole. *)
Lemma two_chunks_same_as_one_witness :
  let c1 := json_bytes "{'type':'get_sce" in
  let c2 := json_bytes "ne_info'}" in
  _handle_client stub_host [read c1; read c2] = Reading [] [VDict [("type", VStr "get_scene_info")]]
  /\ _handle_client stub_host [read (c1 ++ c2)%list]
     = Reading [] [VDict [("type", VStr "get_scene_info")]].
Proof.
  intros c1 c2.
  apply (two_chunks_same_as_one stub_host c1 c2 _
           (mk_exn JSONDecodeError "Expecting value"));
    try discriminate; vm_compute; reflexivity.
Defined.

(** A newline sent after a command, read separately, is left in the buffer. *)
Lemma trailing_bytes_stay_buffered_witness :
  let c1 := json_bytes "{'type':'get_scene_info'}" in
  _handle_client stub_host [read (c1 ++ [x0a])%list]
  = Reading [] [VDict [("type", VStr "get_scene_info")]]
  /\ _handle_client stub_host [read c1; read [x0a]]
     = Reading [x0a] [VDict [("type", VStr "get_scene_info")]].
Proof.
  intros c1. split; [vm_compute; reflexivity |].
  apply (trailing_bytes_stay_buffered stub_host c1 [x0a] _
           (mk_exn JSONDecodeError "Expecting value"));
    try discriminate; vm_compute; reflexivity.
Defined.

(** Failures before the handler is reached come back in the error shape too. *)
Example missing_arguments_message :
  fst (execute_command stub_host (Command "rename_object" []) default_world)
  = Return (error_response
              "BlenderMCPServer.rename_object() missing 2 required positional arguments: 'old_name' and 'new_name'").
Proof. vm_compute. reflexivity. Qed.

Example unexpected_keyword_message :
  fst (execute_command stub_host (Command "get_scene_info" [("verbose", VBool true)])
                       default_world)
  = Return (error_response
              "BlenderMCPServer.get_scene_info() got an unexpected keyword argument 'verbose'").
Proof. vm_compute. reflexivity. Qed.

(** A Hyper3D command binds its keywords to the method of the mode. *)
Example forwarded_keyword_message :
  execute_command stub_host (Command "poll_rodin_job_status" [("request_id", VStr "r1")])
                  (with_flags false true default_world)
  = (Return (error_response
               "BlenderMCPServer.poll_rodin_job_status_main_site() got an unexpected keyword argument 'request_id'"),
     with_flags false true default_world).
Proof. vm_compute. reflexivity. Qed.

Example forwarded_missing_message :
  execute_command stub_host (Command "import_generated_asset" [("name", VStr "chair")])
                  (with_flags false true default_world)
  = (Return (error_response
               "BlenderMCPServer.import_generated_asset_main_site() missing 1 required positional argument: 'task_uuid'"),
     with_flags false true default_world).
Proof. vm_compute. reflexivity. Qed.

Example params_not_a_mapping :
  fst (execute_command stub_host
                       (VDict [("type", VStr "get_scene_info"); ("params", VList [])])
                       default_world)
  = Return (error_response
              "addon.BlenderMCPServer.get_scene_info() argument after ** must be a mapping, not list").
Proof. vm_compute. reflexivity. Qed.

Example command_not_a_dict :
  fst (execute_command stub_host (VList []) default_world)
  = Return (error_response "'list' object has no attribute 'get'").
Proof. vm_compute. reflexivity. Qed.

Example type_not_hashable :
  fst (execute_command stub_host (VDict [("type", VList [])]) default_world)
  = Return (error_response "unhashable type: 'list'").
Proof. vm_compute. reflexivity. Qed.

Example type_missing :
  fst (execute_command stub_host (VDict []) default_world)
  = Return (error_response "Unknown command type: None").
Proof. vm_compute. reflexivity. Qed.

Example object_not_found :
  execute_command stub_host
    (Command "add_modifier" [("object_name", VStr "Sphere"); ("modifier_type", VStr "SUBSURF")])
    default_world
  = (Return (error_response "Object not found: Sphere"), default_world).
Proof. vm_compute. reflexivity. Qed.

(** A bind that fails leaves the server stopped and no socket open. *)
Example start_port_taken :
  start (__init__ "localhost" 9876) (mk_Net 3 [] [] [9876%Z] 0)
  = (__init__ "localhost" 9876, mk_Net 4 [] [] [9876%Z] 0).
Proof. reflexivity. Qed.

(** ** Further properties *)

(** *** Which calls are accepted *)

Lemma dict_has_In (name : string) (entries : list (string * value)) :
  dict_has name entries = true <-> In name (map fst entries).
Proof.
  unfold dict_has. induction entries as [| [k v] rest IH]; simpl.
  - split; [discriminate | contradiction].
  - destruct (String.eqb_spec k name) as [-> | Hne].
    + split; [left; reflexivity | reflexivity].
    + rewrite IH. split; [right; assumption | intros [Heq | Hin]; [contradiction | exact Hin]].
Qed.

Lemma check_keywords_accepts (h : Handler.t) (kwargs : list (string * value)) :
  check_keywords h kwargs = Return tt
  <-> forall key, In key (map fst kwargs) ->
        key <> "self" /\ (In key (parameters h) \/ takes_any_keyword h = true).
Proof.
  induction kwargs as [| [k v] rest IH]; simpl.
  - split; [intros _ key [] | reflexivity].
  - destruct (String.eqb_spec k "self") as [-> | Hself].
    + split; [discriminate |]. intros Hall.
      destruct (Hall "self" (or_introl eq_refl)) as [Hne _]. congruence.
    + rewrite takes_any_keyword_signature.
      destruct (existsb (String.eqb k) _) eqn:Hparam; simpl.
      * rewrite IH. split.
        -- intros Hall key [<- | Hin]; [| exact (Hall key Hin)].
           split; [exact Hself |]. left.
           apply existsb_exists in Hparam as (name & Hname & Heq).
           apply String.eqb_eq in Heq as ->. exact Hname.
        -- intros Hall key Hin. apply Hall. right. exact Hin.
      * destruct (takes_any_keyword h) eqn:Hany.
        -- rewrite IH. split.
           ++ intros Hall key [<- | Hin]; [split; [exact Hself | right; reflexivity] |].
              exact (Hall key Hin).
           ++ intros Hall key Hin. apply Hall. right. exact Hin.
        -- split; [discriminate |]. intros Hall.
           destruct (Hall k (or_introl eq_refl)) as [_ [Hin | Hfalse]]; [| discriminate].
           assert (existsb (String.eqb k) (parameters h) = true) as Hex
               by (apply existsb_exists; exists k; split; [exact Hin | apply String.eqb_refl]).
           unfold parameters in Hex. congruence.
Qed.

Lemma missing_arguments_nil (h : Handler.t) (kwargs : list (string * value)) :
  missing_arguments h kwargs = []
  <-> forall name, In name (sig_required (handler_signature h)) -> In name (map fst kwargs).
Proof.
  unfold missing_arguments.
  induction (sig_required (handler_signature h)) as [| name rest IH].
  - split; [intros _ name [] | reflexivity].
  - rewrite filter_cons. destruct (decide (dict_has name kwargs = false)) as [Hno | Hyes].
    + split; [discriminate |]. intros Hall.
      assert (dict_has name kwargs = true) as Hhas
          by (apply dict_has_In, Hall; left; reflexivity).
      congruence.
    + rewrite IH. apply not_false_is_true in Hyes. split.
      * intros Hall name' [<- | Hin]; [apply dict_has_In; exact Hyes | exact (Hall name' Hin)].
      * intros Hall name' Hin. apply Hall. right. exact Hin.
Qed.

(** X1.  The call [handler( **params )] is accepted exactly when no key is
    [self], every key names a parameter of the handler (or the handler is
    declared with [**kwargs]), and every parameter without a default is among
    the keys. *)
Theorem bind_arguments_accepts (h : Handler.t) (kwargs : list (string * value)) :
  bind_arguments h kwargs = Return tt
  <-> (forall key, In key (map fst kwargs) ->
         key <> "self" /\ (In key (parameters h) \/ takes_any_keyword h = true))
      /\ (forall name, In name (sig_required (handler_signature h)) ->
            In name (map fst kwargs)).
Proof.
  rewrite <- check_keywords_accepts, <- missing_arguments_nil. unfold bind_arguments.
  destruct (check_keywords h kwargs) as [[] | e]; simpl.
  - destruct (missing_arguments h kwargs) as [| name rest].
    + split; [intros _; split; reflexivity | reflexivity].
    + split; [discriminate | intros [_ Hnil]; discriminate].
  - split; [discriminate | intros [Hret _]; discriminate].
Qed.

(** *** Requests that do not have the shape of a Command *)

(** X2.  A decoded document that is not a JSON object is answered with the
    error Response ['<type>' object has no attribute 'get'], and the world is
    left as it was. *)
Theorem command_not_an_object (H : Host) (command : value) (w : World) :
  (forall entries, command <> VDict entries) ->
  execute_command H command w
  = (Return (error_response (quote (type_name command)
                             +:+ " object has no attribute 'get'")), w).
Proof.
  intros Hnot. destruct command; try reflexivity.
  exfalso. apply (Hnot entries). reflexivity.
Qed.

Lemma command_not_an_object_witness :
  (forall entries, VInt 42 <> VDict entries)
  /\ execute_command stub_host (VInt 42) default_world
     = (Return (error_response "'int' object has no attribute 'get'"), default_world).
Proof.
  assert (Hnot : forall entries, VInt 42 <> VDict entries) by (intros entries; discriminate).
  split; [exact Hnot |].
  exact (command_not_an_object stub_host (VInt 42) default_world Hnot).
Defined.

(** X3.  For an enabled command whose [params] is present but is not a JSON
    object, the call raises before the handler runs: the Response is the error
    Response [<module>.BlenderMCPServer.<name>() argument after ** must be a
    mapping, not <type>], with the module under which the file was loaded,
    and the world is left as it was. *)
Theorem params_not_an_object (H : Host) (entries : list (string * value))
        (cmd_type : string) (h : Handler.t) (params : value) (w : World) :
  dict_get "type" entries = Some (VStr cmd_type) ->
  enabled_handlers w !! cmd_type = Some h ->
  dict_get "params" entries = Some params ->
  (forall kwargs, params <> VDict kwargs) ->
  execute_command H (VDict entries) w
  = (Return (error_response (module_name H +:+ "." +:+ qualname h
                             +:+ "() argument after ** must be a mapping, not "
                             +:+ type_name params)), w).
Proof.
  intros Htype Hsome Hparams Hnot.
  rewrite execute_command_eq, (dispatch_known H entries cmd_type h w Htype Hsome).
  unfold params_of. rewrite Hparams.
  destruct params; try reflexivity.
  exfalso. apply (Hnot entries0). reflexivity.
Qed.

Lemma params_not_an_object_witness :
  let entries := [("type", VStr "get_scene_info"); ("params", VNone)] in
  dict_get "type" entries = Some (VStr "get_scene_info")
  /\ enabled_handlers default_world !! "get_scene_info" = Some Handler.get_scene_info
  /\ dict_get "params" entries = Some VNone
  /\ (forall kwargs, VNone <> VDict kwargs)
  /\ execute_command stub_host (VDict entries) default_world
     = (Return (error_response
                  "addon.BlenderMCPServer.get_scene_info() argument after ** must be a mapping, not NoneType"),
        default_world).
Proof.
  intros entries.
  assert (Hsome : enabled_handlers default_world !! "get_scene_info"
                  = Some Handler.get_scene_info) by (vm_compute; reflexivity).
  assert (Hnot : forall kwargs, VNone <> VDict kwargs) by (intros kwargs; discriminate).
  split; [reflexivity |]. split; [exact Hsome |]. split; [reflexivity |].
  split; [exact Hnot |].
  exact (params_not_an_object stub_host entries "get_scene_info" Handler.get_scene_info
                              VNone default_world eq_refl Hsome eq_refl Hnot).
Defined.

Lemma dict_get_app (key : string) (l1 l2 : list (string * value)) :
  dict_get key (l1 ++ l2)
  = match dict_get key l1 with Some v => Some v | None => dict_get key l2 end.
Proof.
  induction l1 as [| [k v] rest IH]; simpl; [reflexivity |].
  destruct (String.eqb k key); [reflexivity | exact IH].
Qed.

(** X4.  A command without a [params] key is dispatched exactly as the same
    command with [params] set to the empty object. *)
Theorem params_default_empty (H : Host) (entries : list (string * value)) (w : World) :
  dict_get "params" entries = None ->
  execute_command H (VDict entries) w
  = execute_command H (VDict (entries ++ [("params", VDict [])])) w.
Proof.
  intros Hnone. rewrite !execute_command_eq.
  unfold _execute_command_internal, command_get.
  rewrite !dict_get_app, Hnone. simpl.
  destruct (dict_get "type" entries); reflexivity.
Qed.

Lemma params_default_empty_witness :
  dict_get "params" [("type", VStr "get_scene_info")] = None
  /\ execute_command stub_host (VDict [("type", VStr "get_scene_info")]) default_world
     = execute_command stub_host (Command "get_scene_info" []) default_world.
Proof.
  split; [reflexivity |].
  exact (params_default_empty stub_host [("type", VStr "get_scene_info")] default_world
                              eq_refl).
Defined.

(** X5.  Only a [str] can name a command.  When [type] is absent or is not a
    string no handler is called and the world is left as it was: a list or an
    object cannot be hashed and is answered with [unhashable type: ...]; any
    other value, [None] for an absent key, is answered as an unknown command
    under its [str()]. *)
Theorem type_not_a_string (H : Host) (entries : list (string * value)) (w : World) :
  (forall name, dict_get "type" entries <> Some (VStr name)) ->
  let cmd_type := match dict_get "type" entries with Some v => v | None => VNone end in
  execute_command H (VDict entries) w
  = (Return (error_response
               match cmd_type with
               | VList _ => "unhashable type: 'list'"
               | VDict _ => "unhashable type: 'dict'"
               | _ => "Unknown command type: " +:+ py_str H cmd_type
               end), w).
Proof.
  intros Hnot cmd_type. rewrite execute_command_eq.
  unfold _execute_command_internal, command_get. fold cmd_type.
  assert (Hne : forall name, cmd_type <> VStr name).
  { intros name Heq. unfold cmd_type in Heq.
    destruct (dict_get "type" entries) as [v |] eqn:Hget; [| discriminate].
    subst v. exact (Hnot name eq_refl). }
  destruct cmd_type; try reflexivity.
  exfalso. exact (Hne s eq_refl).
Qed.

Lemma type_not_a_string_witness :
  (forall name, dict_get "type" [("type", VInt 7)] <> Some (VStr name))
  /\ execute_command stub_host (VDict [("type", VInt 7)]) default_world
     = (Return (error_response "Unknown command type: 7"), default_world).
Proof.
  assert (Hnot : forall name, dict_get "type" [("type", VInt 7)] <> Some (VStr name))
    by (intros name; discriminate).
  split; [exact Hnot |].
  exact (type_not_a_string stub_host [("type", VInt 7)] default_world Hnot).
Defined.

(** *** The tables *)

Lemma base_names (name : string) (h : Handler.t) :
  base_handlers !! name = Some h ->
  polyhaven_handlers !! name = None /\ hyper3d_handlers !! name = None.
Proof. intros Hin. by_table_entry Hin. Qed.

(** X6.  The commands of the base table are enabled whatever the two flags
    are: enabling a capability never hides or rebinds one of them. *)
Theorem base_commands_always_enabled (w : World) (name : string) (h : Handler.t) :
  base_handlers !! name = Some h ->
  enabled_handlers w !! name = Some h.
Proof.
  intros Hin. destruct (base_names name h Hin) as [Hpoly Hhyper].
  rewrite enabled_handlers_lookup, Hpoly, Hhyper, Hin.
  destruct (blendermcp_use_hyper3d (scene w)), (blendermcp_use_polyhaven (scene w));
    reflexivity.
Qed.

Lemma base_commands_always_enabled_witness :
  base_handlers !! "get_polyhaven_status" = Some Handler.get_polyhaven_status
  /\ enabled_handlers (with_flags true true default_world) !! "get_polyhaven_status"
     = Some Handler.get_polyhaven_status.
Proof.
  assert (Hin : base_handlers !! "get_polyhaven_status" = Some Handler.get_polyhaven_status)
    by (vm_compute; reflexivity).
  split; [exact Hin |].
  exact (base_commands_always_enabled (with_flags true true default_world) _ _ Hin).
Defined.

Lemma table_wiring (table : gmap string Handler.t) (name : string) (h : Handler.t) :
  table = base_handlers \/ table = polyhaven_handlers \/ table = hyper3d_handlers ->
  table !! name = Some h ->
  qualname h = "BlenderMCPServer." +:+ name.
Proof.
  intros [-> | [-> | ->]] Hin; by_entry Hin.
Qed.

(** X7.  Every command name is bound to the method of the same name: a name
    enabled at a call resolves to the handler whose qualified name is
    [BlenderMCPServer.<name>]. *)
Theorem command_bound_to_its_method (w : World) (name : string) (h : Handler.t) :
  enabled_handlers w !! name = Some h ->
  qualname h = "BlenderMCPServer." +:+ name.
Proof.
  rewrite enabled_handlers_lookup. intros Hin.
  destruct (blendermcp_use_hyper3d (scene w));
    [destruct (hyper3d_handlers !! name) as [h' |] eqn:Hhyper;
     [injection Hin as ->; apply (table_wiring hyper3d_handlers); auto |] |];
    (destruct (blendermcp_use_polyhaven (scene w));
     [destruct (polyhaven_handlers !! name) as [h' |] eqn:Hpoly;
      [injection Hin as ->; apply (table_wiring polyhaven_handlers); auto |] |];
     apply (table_wiring base_handlers); auto).
Qed.

Lemma command_bound_to_its_method_witness :
  enabled_handlers (with_flags true false default_world) !! "set_texture"
  = Some Handler.set_texture
  /\ qualname Handler.set_texture = "BlenderMCPServer.set_texture".
Proof.
  assert (Hin : enabled_handlers (with_flags true false default_world) !! "set_texture"
                = Some Handler.set_texture) by (vm_compute; reflexivity).
  split; [exact Hin |].
  exact (command_bound_to_its_method _ _ _ Hin).
Defined.


(** *** The reply to a command *)

(** X8.  To a connected peer the timer sends exactly one text per command that
    dispatch answered: the serialisation of the Response, or, when
    [json.dumps] raised on it, that of the error Response carrying what
    [json.dumps] raised.  In both cases the timer returns and the world is the
    one the handler left. *)
Theorem one_reply_per_command (H : Host) (command response : value) (w w' : World)
        (client : Client) :
  execute_command H command w = (Return response, w') ->
  peer_connected client = true ->
  (forall e, json_dumps H response = Raise e ->
             isinstance_Exception e = true
             /\ exists text, json_dumps H (error_response (exc_str e)) = Return text) ->
  exists text,
    execute_wrapper H command w client
    = (Return tt, w', mk_Client true (sent client ++ [text]))
    /\ (json_dumps H response = Return text
        \/ exists e, json_dumps H response = Raise e
                     /\ json_dumps H (error_response (exc_str e)) = Return text).
Proof.
  intros Hexec Hpeer Hdumps. unfold execute_wrapper. rewrite Hexec. simpl.
  destruct (json_dumps H response) as [text | e] eqn:Hjson.
  - exists text. unfold sendall. rewrite Hpeer. split; [reflexivity | left; reflexivity].
  - destruct (Hdumps e eq_refl) as [He [text Htext]].
    rewrite He, Htext. exists text. unfold sendall. rewrite Hpeer.
    split; [reflexivity | right; exists e; split; [reflexivity | exact Htext]].
Qed.

(** A handler returns a Blender object: it has run, and the peer is told that
    its result cannot be serialised. *)
Lemma one_reply_per_command_witness :
  let command := Command "exit_edit_mode" [] in
  let response := success_response (VObject "<bpy_struct>") in
  let client := mk_Client true [] in
  execute_command object_host command default_world = (Return response, default_world)
  /\ peer_connected client = true
  /\ exists text,
      execute_wrapper object_host command default_world client
      = (Return tt, default_world, mk_Client true [text])
      /\ json_dumps object_host response <> Return text.
Proof.
  intros command response client.
  assert (Hexec : execute_command object_host command default_world
                  = (Return response, default_world)) by (vm_compute; reflexivity).
  assert (Hdumps : forall e, json_dumps object_host response = Raise e ->
                     isinstance_Exception e = true
                     /\ exists text,
                         json_dumps object_host (error_response (exc_str e)) = Return text).
  { intros e He. vm_compute in He. injection He as <-.
    split; [reflexivity |]. eexists. vm_compute. reflexivity. }
  split; [exact Hexec |]. split; [reflexivity |].
  destruct (one_reply_per_command object_host command response default_world default_world
                                  client Hexec eq_refl Hdumps)
    as (text & Hwrap & [Hok | (e & He & Htext)]).
  - vm_compute in Hok. discriminate.
  - exists text. split; [exact Hwrap |]. rewrite He. discriminate.
Defined.

(** X9.  When the peer has gone, the timer sends nothing and still returns:
    the command has run, and the world is the one its handler left. *)
Theorem reply_to_absent_peer (H : Host) (command response : value) (w w' : World)
        (client : Client) :
  execute_command H command w = (Return response, w') ->
  peer_connected client = false ->
  (forall e, json_dumps H response = Raise e -> isinstance_Exception e = true) ->
  execute_wrapper H command w client = (Return tt, w', client).
Proof.
  intros Hexec Hpeer Hdumps. unfold execute_wrapper. rewrite Hexec. simpl.
  destruct (json_dumps H response) as [text | e] eqn:Hjson.
  - unfold sendall. rewrite Hpeer. reflexivity.
  - rewrite (Hdumps e eq_refl).
    destruct (json_dumps H (error_response (exc_str e))) as [text | e']; [| reflexivity].
    unfold sendall. rewrite Hpeer. reflexivity.
Qed.

(** The modifier is added although nobody is left to be told. *)
Lemma reply_to_absent_peer_witness :
  let command := Command "add_modifier"
                         [("object_name", VStr "Cube"); ("modifier_type", VStr "SUBSURF")] in
  let response := success_response (VDict [("object", VStr "Cube");
                                           ("modifier", VStr "SUBSURF");
                                           ("type", VStr "SUBSURF")]) in
  let w' := with_modifier default_world "Cube" cube
                          (mk_Modifier "SUBSURF" "SUBSURF" [("levels", VInt 1)]) in
  let client := mk_Client false [] in
  execute_command stub_host command default_world = (Return response, w')
  /\ peer_connected client = false
  /\ execute_wrapper stub_host command default_world client = (Return tt, w', client).
Proof.
  intros command response w' client.
  assert (Hexec : execute_command stub_host command default_world = (Return response, w'))
    by (vm_compute; reflexivity).
  split; [exact Hexec |]. split; [reflexivity |].
  apply (reply_to_absent_peer stub_host command response default_world w' client Hexec eq_refl).
  intros e He. vm_compute in He. discriminate.
Defined.

(** *** The read loop over any number of reads *)

(** The loop over fragments, from a buffer. *)
Lemma fragments_from (H : Host) (command : value) (chunks : list (list byte)) :
  forall (buffer : list byte) (submitted : list value),
    chunks <> [] ->
    Forall (fun data => data <> []) chunks ->
    (forall k, 0 < k < length chunks -> rejected H (buffer ++ concat (take k chunks))) ->
    decode_utf8 (buffer ++ concat chunks) ≫= json_loads H = Return command ->
    _handle_client_loop H buffer submitted (map read chunks)
    = Reading [] (submitted ++ [command]).
Proof.
  induction chunks as [| data rest IH]; intros buffer submitted Hne Hdata Hrej Hwhole;
    [congruence |].
  apply Forall_cons in Hdata as [Hdata Hrest].
  cbn [map]. rewrite (loop_step H buffer submitted data (map read rest) Hdata).
  destruct rest as [| data' rest'].
  - simpl in Hwhole. rewrite app_nil_r in Hwhole. rewrite Hwhole. reflexivity.
  - destruct (Hrej 1) as (e & Hraise & He); [simpl; lia |].
    simpl in Hraise. rewrite app_nil_r in Hraise. rewrite Hraise, He.
    apply IH; [discriminate | exact Hrest | |].
    + intros k Hk. specialize (Hrej (S k)).
      cbn [take firstn concat] in Hrej. rewrite app_assoc in Hrej.
      apply Hrej. simpl in *. lia.
    + cbn [concat] in Hwhole. rewrite app_assoc in Hwhole. exact Hwhole.
Qed.

(** X12.  A command that arrives in any number of non-empty reads is decoded
    once, when the last read arrives, and the buffer is then empty, provided
    [json.loads] turns down every shorter accumulation with
    [JSONDecodeError]. *)
Theorem fragments_decode_once (H : Host) (command : value) (chunks : list (list byte)) :
  chunks <> [] ->
  Forall (fun data => data <> []) chunks ->
  (forall k, 0 < k < length chunks -> rejected H (concat (take k chunks))) ->
  decode_utf8 (concat chunks) ≫= json_loads H = Return command ->
  _handle_client H (map read chunks) = Reading [] [command]
  /\ _handle_client H [read (concat chunks)] = Reading [] [command].
Proof.
  intros Hne Hdata Hrej Hwhole. unfold _handle_client. split.
  - apply (fragments_from H command chunks [] [] Hne Hdata Hrej Hwhole).
  - assert (Hall : concat chunks <> []).
    { destruct chunks as [| data rest]; [congruence |].
      apply Forall_cons in Hdata as [Hdata _]. destruct data; [congruence | discriminate]. }
    rewrite (loop_step H [] [] (concat chunks) [] Hall). simpl app. rewrite Hwhole.
    reflexivity.
Qed.

Lemma fragments_decode_once_witness :
  let chunks := [json_bytes "{'type':"; json_bytes "'get_scene"; json_bytes "_info'}"] in
  chunks <> []
  /\ Forall (fun data => data <> []) chunks
  /\ _handle_client stub_host (map read chunks)
     = Reading [] [VDict [("type", VStr "get_scene_info")]].
Proof.
  intros chunks.
  assert (Hne : chunks <> []) by discriminate.
  assert (Hdata : Forall (fun data : list byte => data <> []) chunks)
    by (repeat constructor; discriminate).
  split; [exact Hne |]. split; [exact Hdata |].
  apply (fragments_decode_once stub_host _ chunks Hne Hdata).
  - intros k Hk. exists (mk_exn JSONDecodeError "Expecting value").
    assert (Hcases : k = 1 \/ k = 2) by (simpl in Hk; lia).
    destruct Hcases as [-> | ->]; split; vm_compute; reflexivity.
  - vm_compute. reflexivity.
Defined.






(** *** The timers of a connection *)




(** *** The accept loop *)

Lemma server_loop_app (passes more : list accept_pass) (handlers : list nat) :
  _server_loop handlers (passes ++ more)
  = match _server_loop handlers passes with
    | Accepting handlers' => _server_loop handlers' more
    | st => st
    end.
Proof.
  revert handlers. induction passes as [| pass rest IH]; intros handlers; [reflexivity |].
  cbn [app _server_loop].
  destruct (negb (listening_now pass)); [reflexivity |].
  destruct (accept pass) as [client | | e]; try apply IH.
  destruct (isinstance_Exception e); [apply IH | reflexivity].
Qed.

Lemma accepted_clients_cons (pass : accept_pass) (rest : list accept_pass) :
  accepted_clients (pass :: rest)
  = match accept pass with
    | Accepted client => client :: accepted_clients rest
    | _ => accepted_clients rest
    end.
Proof. unfold accepted_clients. simpl. destruct (accept pass); reflexivity. Qed.

Lemma server_loop_survives (passes : list accept_pass) (handlers : list nat) :
  Forall survivable passes ->
  _server_loop handlers passes = Accepting (handlers ++ accepted_clients passes).
Proof.
  revert handlers. induction passes as [| pass rest IH]; intros handlers Hall.
  - simpl. rewrite app_nil_r. reflexivity.
  - apply Forall_cons in Hall as [[Hrun Hok] Hrest].
    cbn [_server_loop]. rewrite Hrun, accepted_clients_cons. cbn [negb].
    destruct (accept pass) as [client | | e].
    + rewrite (IH _ Hrest), <- app_assoc. reflexivity.
    + apply (IH _ Hrest).
    + rewrite Hok. apply (IH _ Hrest).
Qed.

(** X14.  The listener starts one handler per accepted connection, in the
    order of the connections, and neither a timeout nor an [accept] that
    raises an [Exception] ends it: as long as it finds the server running it
    is still accepting, and it leaves its loop, starting nothing more, on the
    first pass that finds the server stopped. *)
Theorem listener_serves_until_stopped (passes later : list accept_pass)
        (last : accept_outcome) :
  Forall survivable passes ->
  _server_loop [] passes = Accepting (accepted_clients passes)
  /\ _server_loop [] (passes ++ mk_accept_pass false last :: later)
     = Exited (accepted_clients passes).
Proof.
  intros Hall. pose proof (server_loop_survives passes [] Hall) as Hloop.
  simpl in Hloop. split; [exact Hloop |].
  rewrite server_loop_app, Hloop. reflexivity.
Qed.

Lemma listener_serves_until_stopped_witness :
  let refused := AcceptRaise (mk_exn OSError "[Errno 24] Too many open files") in
  let passes := [mk_accept_pass true (Accepted 5); mk_accept_pass true AcceptTimeout;
                 mk_accept_pass true refused; mk_accept_pass true (Accepted 6)] in
  Forall survivable passes
  /\ _server_loop [] passes = Accepting [5; 6]
  /\ _server_loop [] (passes ++ [mk_accept_pass false (Accepted 7)]) = Exited [5; 6].
Proof.
  intros refused passes.
  assert (Hall : Forall survivable passes) by (repeat constructor).
  split; [exact Hall |].
  exact (listener_serves_until_stopped passes [] (Accepted 7) Hall).
Defined.

(** *** Sockets across [start] and [stop] *)

Lemma filter_bool_cons {A : Type} (f : A -> bool) (x : A) (l : list A) :
  filter f (x :: l) = if f x then x :: filter f l else filter f l.
Proof.
  rewrite filter_cons. destruct (decide (f x)) as [Hyes | Hno]; destruct (f x);
    simpl in *; try reflexivity; try contradiction.
Qed.

Lemma close_fresh_socket (fd : nat) (fds : list nat) :
  Forall (fun fd' => fd' < fd) fds ->
  filter (fun fd' => negb (Nat.eqb fd' fd)) (fds ++ [fd])%list = fds.
Proof.
  induction fds as [| fd' rest IH]; intros Hall.
  - simpl. rewrite filter_bool_cons, Nat.eqb_refl. reflexivity.
  - apply Forall_cons in Hall as [Hlt Hrest]. simpl. rewrite filter_bool_cons.
    assert (Nat.eqb fd' fd = false) as -> by (apply Nat.eqb_neq; lia). simpl.
    rewrite (IH Hrest). reflexivity.
Qed.

Lemma close_other_listeners (fd : nat) (entries : list (nat * Z)) :
  Forall (fun entry => fst entry < fd) entries ->
  filter (fun entry : nat * Z => negb (Nat.eqb (fst entry) fd)) entries = entries.
Proof.
  induction entries as [| entry rest IH]; intros Hall; [reflexivity |].
  apply Forall_cons in Hall as [Hlt Hrest]. rewrite filter_bool_cons.
  assert (Nat.eqb (fst entry) fd = false) as -> by (apply Nat.eqb_neq; lia). simpl.
  rewrite (IH Hrest). reflexivity.
Qed.

Lemma close_own_listener (fd : nat) (p : Z) (entries : list (nat * Z)) :
  Forall (fun entry => fst entry < fd) entries ->
  filter (fun entry : nat * Z => negb (Nat.eqb (fst entry) fd))
         (entries ++ [(fd, p)])%list
  = entries.
Proof.
  intros Hall. rewrite filter_app, (close_other_listeners fd entries Hall).
  rewrite filter_bool_cons. simpl. rewrite Nat.eqb_refl. simpl. apply app_nil_r.
Qed.

(** X15.  A start that cannot bind leaves no trace: the server is stopped
    with no socket and no thread, the socket that was created is closed, and
    the listeners are the ones there were. *)
Theorem failed_start_leaves_no_trace (srv : BlenderMCPServer) (net : Net) :
  running srv = false ->
  port_in_use net (port srv) = true ->
  fresh_fds net ->
  running (fst (start srv net)) = false
  /\ socket (fst (start srv net)) = None
  /\ server_thread (fst (start srv net)) = None
  /\ open_sockets (snd (start srv net)) = open_sockets net
  /\ listening (snd (start srv net)) = listening net
  /\ foreign_ports (snd (start srv net)) = foreign_ports net.
Proof.
  intros Hrun Hbusy [Hopen Hlisten]. unfold start. rewrite Hrun. cbn [port running].
  assert (Hbusy' : port_in_use
                     (mk_Net (S (next_fd net)) (open_sockets net ++ [next_fd net])%list
                             (listening net) (foreign_ports net) (next_thread net))
                     (port srv) = true) by exact Hbusy.
  rewrite Hbusy'. unfold stop, socket_close. cbn.
  rewrite (close_fresh_socket _ _ Hopen), (close_other_listeners _ _ Hlisten).
  destruct (server_thread srv); cbn; repeat split; reflexivity.
Qed.

Lemma failed_start_leaves_no_trace_witness :
  let srv := __init__ "localhost" 9876 in
  let net := mk_Net 5 [3; 4] [(4, 8080%Z)] [9876%Z] 0 in
  running srv = false
  /\ port_in_use net (port srv) = true
  /\ fresh_fds net
  /\ start srv net = (srv, mk_Net 6 [3; 4] [(4, 8080%Z)] [9876%Z] 0)
  /\ listening (snd (start srv net)) = listening net.
Proof.
  intros srv net.
  assert (Hfresh : fresh_fds net) by (split; repeat constructor).
  destruct (failed_start_leaves_no_trace srv net eq_refl eq_refl Hfresh)
    as (_ & _ & _ & _ & Hlisten & _).
  split; [reflexivity |]. split; [reflexivity |]. split; [exact Hfresh |].
  split; [reflexivity | exact Hlisten].
Defined.

(** What a start that binds leaves. *)
Lemma start_binds (srv : BlenderMCPServer) (net : Net) :
  running srv = false ->
  port_in_use net (port srv) = false ->
  start srv net
  = (mk_server (host srv) (port srv) true (Some (next_fd net)) (Some (next_thread net)),
     mk_Net (S (next_fd net)) (open_sockets net ++ [next_fd net])%list
            (listening net ++ [(next_fd net, port srv)])%list
            (foreign_ports net) (S (next_thread net))).
Proof.
  intros Hrun Hfree. unfold start. rewrite Hrun. cbn [port running].
  assert (Hfree' : port_in_use
                     (mk_Net (S (next_fd net)) (open_sockets net ++ [next_fd net])%list
                             (listening net) (foreign_ports net) (next_thread net))
                     (port srv) = false) by exact Hfree.
  rewrite Hfree'. reflexivity.
Qed.

(** X16.  A start that binds followed by a stop closes what the start opened:
    the open sockets and the listeners are those from before, the server is
    stopped, and a further start binds the same port again. *)
Theorem start_then_stop_restores (srv : BlenderMCPServer) (net : Net) :
  running srv = false ->
  port_in_use net (port srv) = false ->
  fresh_fds net ->
  let started := start srv net in
  let stopped := stop (fst started) (snd started) in
  let again := start (fst stopped) (snd stopped) in
  running (fst started) = true
  /\ running (fst stopped) = false
  /\ socket (fst stopped) = None
  /\ open_sockets (snd stopped) = open_sockets net
  /\ listening (snd stopped) = listening net
  /\ running (fst again) = true
  /\ port (fst again) = port srv
  /\ bound_listeners (snd again) = S (bound_listeners net).
Proof.
  intros Hrun Hfree [Hopen Hlisten]. cbv zeta.
  rewrite (start_binds srv net Hrun Hfree). cbn [fst snd].
  unfold stop, socket_close.
  cbn [fst snd socket server_thread running host port
       next_fd open_sockets listening foreign_ports next_thread].
  rewrite (close_fresh_socket _ _ Hopen), (close_own_listener _ _ _ Hlisten).
  rewrite start_binds; [| reflexivity | exact Hfree].
  unfold bound_listeners. cbn. rewrite length_app. cbn.
  repeat split; try reflexivity. lia.
Qed.

Lemma start_then_stop_restores_witness :
  let srv := __init__ "localhost" 9876 in
  let net := mk_Net 5 [3; 4] [(4, 8080%Z)] [] 0 in
  running srv = false
  /\ port_in_use net (port srv) = false
  /\ fresh_fds net
  /\ start srv net
     = (mk_server "localhost" 9876 true (Some 5) (Some 0),
        mk_Net 6 [3; 4; 5] [(4, 8080%Z); (5, 9876%Z)] [] 1)
  /\ stop (fst (start srv net)) (snd (start srv net))
     = (srv, mk_Net 6 [3; 4] [(4, 8080%Z)] [] 1)
  /\ listening (snd (stop (fst (start srv net)) (snd (start srv net)))) = listening net.
Proof.
  intros srv net.
  assert (Hfresh : fresh_fds net) by (split; repeat constructor).
  destruct (start_then_stop_restores srv net eq_refl eq_refl Hfresh)
    as (_ & _ & _ & _ & Hlisten & _).
  split; [reflexivity |]. split; [reflexivity |]. split; [exact Hfresh |].
  split; [reflexivity |]. split; [reflexivity | exact Hlisten].
Defined.

(** X18.  [stop] closes the socket of the server and no other: a listener on
    another descriptor is still listening afterwards, and none is left on the
    descriptor the server held. *)
Theorem stop_closes_own_socket_only (srv : BlenderMCPServer) (net : Net)
        (fd : nat) (entry : nat * Z) :
  socket srv = Some fd ->
  entry ∈ listening net ->
  (fst entry <> fd -> entry ∈ listening (snd (stop srv net)))
  /\ (entry ∈ listening (snd (stop srv net)) -> fst entry <> fd).
Proof.
  intros Hsock Hin. unfold stop. cbn [socket]. rewrite Hsock.
  assert (Hnet : forall t : option nat,
             listening (snd (let srv0 := match t with
                                         | Some _ => mk_server (host srv) (port srv) false None None
                                         | None => mk_server (host srv) (port srv) false None t
                                         end in
                             (srv0, socket_close fd net)))
             = filter (fun e : nat * Z => negb (Nat.eqb (fst e) fd)) (listening net))
    by (intros [t |]; reflexivity).
  cbn. destruct (server_thread srv); cbn; split.
  - intros Hne. apply list_elem_of_filter. split; [| exact Hin].
    apply Is_true_true, negb_true_iff, Nat.eqb_neq. exact Hne.
  - intros Hleft. apply list_elem_of_filter in Hleft as [Hkeep _].
    apply Is_true_true, negb_true_iff, Nat.eqb_neq in Hkeep. exact Hkeep.
  - intros Hne. apply list_elem_of_filter. split; [| exact Hin].
    apply Is_true_true, negb_true_iff, Nat.eqb_neq. exact Hne.
  - intros Hleft. apply list_elem_of_filter in Hleft as [Hkeep _].
    apply Is_true_true, negb_true_iff, Nat.eqb_neq in Hkeep. exact Hkeep.
Qed.

Lemma stop_closes_own_socket_only_witness :
  let srv := mk_server "localhost" 9876 true (Some 5) (Some 0) in
  let net := mk_Net 6 [3; 4; 5] [(4, 8080%Z); (5, 9876%Z)] [] 1 in
  socket srv = Some 5
  /\ (4, 8080%Z) ∈ listening net
  /\ (4, 8080%Z) ∈ listening (snd (stop srv net))
  /\ listening (snd (stop srv net)) = [(4, 8080%Z)].
Proof.
  intros srv net.
  assert (Hin : (4, 8080%Z) ∈ listening net) by (apply list_elem_of_here).
  split; [reflexivity |]. split; [exact Hin |]. split; [| reflexivity].
  apply (proj1 (stop_closes_own_socket_only srv net 5 (4, 8080%Z) eq_refl Hin)).
  simpl. lia.
Defined.

(** *** The operators *)

(** What a start that cannot bind leaves. *)
Lemma start_refused (srv : BlenderMCPServer) (net : Net) :
  running srv = false ->
  port_in_use net (port srv) = true ->
  fresh_fds net ->
  start srv net
  = (mk_server (host srv) (port srv) false None None,
     mk_Net (S (next_fd net)) (open_sockets net) (listening net)
            (foreign_ports net) (next_thread net)).
Proof.
  intros Hrun Hbusy [Hopen Hlisten]. unfold start. rewrite Hrun. cbn [port running].
  assert (Hbusy' : port_in_use
                     (mk_Net (S (next_fd net)) (open_sockets net ++ [next_fd net])%list
                             (listening net) (foreign_ports net) (next_thread net))
                     (port srv) = true) by exact Hbusy.
  rewrite Hbusy'. unfold stop, socket_close. cbn.
  rewrite (close_fresh_socket _ _ Hopen), (close_other_listeners _ _ Hlisten).
  destruct (server_thread srv); reflexivity.
Qed.

Lemma fresh_fds_next (net : Net) :
  fresh_fds net ->
  fresh_fds (mk_Net (S (next_fd net)) (open_sockets net) (listening net)
                    (foreign_ports net) (next_thread net)).
Proof.
  intros [Hopen Hlisten]. split; cbn.
  - eapply Forall_impl; [exact Hopen | cbn; intros; lia].
  - eapply Forall_impl; [exact Hlisten | cbn; intros; lia].
Qed.

(** X19.  [StartServer] sets [blendermcp_server_running] whatever [start]
    did: when the port is taken, the panel shows the server as running while
    the server object is stopped and holds no socket, and nothing listens
    that did not before. *)
Theorem start_operator_sets_flag_regardless (addon : Addon) (net : Net) :
  blendermcp_server addon = None ->
  port_in_use net (blendermcp_port addon) = true ->
  fresh_fds net ->
  let after := StartServer_execute addon net in
  blendermcp_server_running (fst after) = true
  /\ blendermcp_server (fst after) = Some (__init__ "localhost" (blendermcp_port addon))
  /\ listening (snd after) = listening net
  /\ open_sockets (snd after) = open_sockets net.
Proof.
  intros Hnone Hbusy Hfresh. cbv zeta. unfold StartServer_execute. rewrite Hnone.
  rewrite (start_refused (__init__ "localhost" (blendermcp_port addon)) net
                         eq_refl Hbusy Hfresh).
  repeat split.
Qed.

Lemma start_operator_sets_flag_regardless_witness :
  let addon := mk_Addon None 9876 false in
  let net := mk_Net 3 [] [] [9876%Z] 0 in
  blendermcp_server addon = None
  /\ port_in_use net (blendermcp_port addon) = true
  /\ fresh_fds net
  /\ blendermcp_server_running (fst (StartServer_execute addon net)) = true
  /\ StartServer_execute addon net
     = (mk_Addon (Some (__init__ "localhost" 9876)) 9876 true, mk_Net 4 [] [] [9876%Z] 0).
Proof.
  intros addon net.
  assert (Hfresh : fresh_fds net) by (split; constructor).
  split; [reflexivity |]. split; [reflexivity |]. split; [exact Hfresh |].
  split; [| reflexivity].
  exact (proj1 (start_operator_sets_flag_regardless addon net eq_refl eq_refl Hfresh)).
Defined.

(** X20.  The port is read when the server object is created and not again.
    After a start that failed on a taken port the object is kept, so a second
    [StartServer] with the scene set to a free port tries the old port and
    fails again; after a [StopServer], which deletes the object, the same
    [StartServer] binds the new port. *)
Theorem port_read_at_creation_only (net : Net) (old new : Z) (flag : bool) :
  port_in_use net old = true ->
  port_in_use net new = false ->
  fresh_fds net ->
  let first := StartServer_execute (mk_Addon None old flag) net in
  let retry := StartServer_execute (mk_Addon (blendermcp_server (fst first)) new true)
                                   (snd first) in
  let reset := StopServer_execute (mk_Addon (blendermcp_server (fst first)) new true)
                                  (snd first) in
  let fresh := StartServer_execute (fst reset) (snd reset) in
  blendermcp_server (fst retry) = Some (__init__ "localhost" old)
  /\ listening (snd retry) = listening net
  /\ blendermcp_server (fst fresh)
     = Some (mk_server "localhost" new true (Some (S (next_fd net)))
                       (Some (next_thread net)))
  /\ listening (snd fresh) = (listening net ++ [(S (next_fd net), new)])%list.
Proof.
  intros Hbusy Hfree Hfresh. cbv zeta.
  set (net1 := mk_Net (S (next_fd net)) (open_sockets net) (listening net)
                      (foreign_ports net) (next_thread net)).
  assert (Hbusy1 : port_in_use net1 old = true) by exact Hbusy.
  assert (Hfree1 : port_in_use net1 new = false) by exact Hfree.
  pose proof (fresh_fds_next net Hfresh) as Hfresh1. fold net1 in Hfresh1.
  assert (Hfirst : StartServer_execute (mk_Addon None old flag) net
                   = (mk_Addon (Some (__init__ "localhost" old)) old true, net1)).
  { unfold StartServer_execute. cbn [blendermcp_server blendermcp_port].
    rewrite (start_refused (__init__ "localhost" old) net eq_refl Hbusy Hfresh).
    reflexivity. }
  rewrite Hfirst. cbn [fst snd blendermcp_server].
  assert (Hretry : StartServer_execute (mk_Addon (Some (__init__ "localhost" old)) new true)
                                       net1
                   = (mk_Addon (Some (__init__ "localhost" old)) new true,
                      mk_Net (S (next_fd net1)) (open_sockets net1) (listening net1)
                             (foreign_ports net1) (next_thread net1))).
  { unfold StartServer_execute. cbn [blendermcp_server blendermcp_port].
    rewrite (start_refused (__init__ "localhost" old) net1 eq_refl Hbusy1 Hfresh1).
    reflexivity. }
  rewrite Hretry.
  assert (Hreset : StopServer_execute (mk_Addon (Some (__init__ "localhost" old)) new true)
                                      net1
                   = (mk_Addon None new false, net1)) by reflexivity.
  rewrite Hreset. cbn [fst snd].
  unfold StartServer_execute. cbn [blendermcp_server blendermcp_port].
  rewrite (start_binds (__init__ "localhost" new) net1 eq_refl Hfree1).
  repeat split.
Qed.

Lemma port_read_at_creation_only_witness :
  let net := mk_Net 3 [] [] [9876%Z] 0 in
  port_in_use net 9876 = true
  /\ port_in_use net 9877 = false
  /\ fresh_fds net
  /\ blendermcp_server
       (fst (StartServer_execute
               (mk_Addon (Some (__init__ "localhost" 9876)) 9877 true)
               (mk_Net 4 [] [] [9876%Z] 0)))
     = Some (__init__ "localhost" 9876).
Proof.
  intros net.
  assert (Hfresh : fresh_fds net) by (split; constructor).
  split; [reflexivity |]. split; [reflexivity |]. split; [exact Hfresh |].
  exact (proj1 (port_read_at_creation_only net 9876 9877 false eq_refl eq_refl Hfresh)).
Defined.

(** X21.  [StartServer] followed by [StopServer], or by [unregister], leaves
    the sockets as they were: the listener the start bound is closed, the
    server object is deleted and the panel shows the server as stopped. *)
Theorem start_stop_operators_restore (addon : Addon) (net : Net) :
  blendermcp_server addon = None ->
  port_in_use net (blendermcp_port addon) = false ->
  fresh_fds net ->
  let started := StartServer_execute addon net in
  let stopped := StopServer_execute (fst started) (snd started) in
  bound_listeners (snd started) = S (bound_listeners net)
  /\ fst stopped = mk_Addon None (blendermcp_port addon) false
  /\ listening (snd stopped) = listening net
  /\ open_sockets (snd stopped) = open_sockets net
  /\ listening (unregister (fst started) (snd started)) = listening net
  /\ open_sockets (unregister (fst started) (snd started)) = open_sockets net.
Proof.
  intros Hnone Hfree [Hopen Hlisten]. cbv zeta.
  unfold StartServer_execute. rewrite Hnone.
  rewrite (start_binds (__init__ "localhost" (blendermcp_port addon)) net eq_refl Hfree).
  unfold StopServer_execute, unregister, stop, socket_close, bound_listeners.
  cbn [fst snd blendermcp_server blendermcp_port socket server_thread running host port
       next_fd open_sockets listening foreign_ports next_thread __init__].
  rewrite (close_fresh_socket _ _ Hopen), (close_own_listener _ _ _ Hlisten).
  rewrite length_app. cbn. repeat split; try reflexivity. lia.
Qed.

Lemma start_stop_operators_restore_witness :
  let addon := mk_Addon None 9876 false in
  let net := mk_Net 3 [] [] [] 0 in
  blendermcp_server addon = None
  /\ port_in_use net (blendermcp_port addon) = false
  /\ fresh_fds net
  /\ StartServer_execute addon net
     = (mk_Addon (Some (mk_server "localhost" 9876 true (Some 3) (Some 0))) 9876 true,
        mk_Net 4 [3] [(3, 9876%Z)] [] 1)
  /\ bound_listeners (snd (StartServer_execute addon net)) = 1.
Proof.
  intros addon net.
  assert (Hfresh : fresh_fds net) by (split; constructor).
  split; [reflexivity |]. split; [reflexivity |]. split; [exact Hfresh |].
  split; [reflexivity |].
  exact (proj1 (start_stop_operators_restore addon net eq_refl eq_refl Hfresh)).
Defined.

(** *** The Hyper3D status against dispatch *)

(** X22.  [get_hyper3d_status] reports the integration as enabled exactly when
    the Hyper3D commands resolve at dispatch and an API key is given: with the
    flag set and no key the commands are dispatched although the status says
    the integration is disabled. *)
Theorem hyper3d_status_needs_key (w : World) (name : string) (h : Handler.t) :
  hyper3d_handlers !! name = Some h ->
  says_enabled (get_hyper3d_status w) = true
  <-> enabled_handlers w !! name = Some h
      /\ blendermcp_hyper3d_api_key (scene w) <> EmptyString.
Proof.
  intros Hin. rewrite (capability_lookup Hyper3D w name h Hin).
  unfold get_hyper3d_status, capability_flag, truthy.
  destruct (blendermcp_use_hyper3d (scene w)).
  - destruct (String.eqb_spec (blendermcp_hyper3d_api_key (scene w)) EmptyString)
      as [Hempty | Hgiven]; cbn.
    + split; [discriminate | intros [_ Hkey]; contradiction].
    + split; [intros _; split; [reflexivity | exact Hgiven] | reflexivity].
  - cbn. split; [discriminate | intros [Hsome _]; discriminate].
Qed.

Lemma hyper3d_status_needs_key_witness :
  let w := with_flags false true default_world in
  hyper3d_handlers !! "create_rodin_job" = Some Handler.create_rodin_job
  /\ enabled_handlers w !! "create_rodin_job" = Some Handler.create_rodin_job
  /\ says_enabled (get_hyper3d_status w) <> true
  /\ says_enabled (get_hyper3d_status (SetFreeTrialHyper3DAPIKey_execute w)) = true.
Proof.
  intros w.
  assert (Hin : hyper3d_handlers !! "create_rodin_job" = Some Handler.create_rodin_job)
    by (vm_compute; reflexivity).
  split; [exact Hin |]. split; [vm_compute; reflexivity |]. split.
  - intros Hsays.
    destruct (proj1 (hyper3d_status_needs_key w _ _ Hin) Hsays) as [_ Hkey].
    apply Hkey. reflexivity.
  - apply (hyper3d_status_needs_key (SetFreeTrialHyper3DAPIKey_execute w) _ _ Hin).
    split; [vm_compute; reflexivity | discriminate].
Defined.

(** *** Modifiers and objects *)

(** What [add_modifier] leaves once the object is found and the modifier is
    created: the modifier is on the stack whether or not the attributes could
    be set. *)
Lemma add_modifier_created (H : Host) (kwargs : list (string * value)) (w : World)
      (name : string) (obj : Object) (md : Modifier) :
  kwarg "object_name" kwargs VNone = VStr name ->
  bpy_data_objects w !! name = Some obj ->
  modifiers_new H obj (kwarg "modifier_type" kwargs VNone)
                (kwarg "modifier_type" kwargs VNone) = Return md ->
  add_modifier H kwargs w
  = (fst (set_modifier_attrs H md (extra_kwargs kwargs)) ;;
     Return (VDict [("object", VStr name);
                    ("modifier",
                     VStr (mod_name (snd (set_modifier_attrs H md (extra_kwargs kwargs)))));
                    ("type", kwarg "modifier_type" kwargs VNone)]),
     with_modifier w name obj (snd (set_modifier_attrs H md (extra_kwargs kwargs)))).
Proof.
  intros Hname Hobj Hnew. unfold add_modifier, objects_get.
  rewrite Hname, Hobj, Hnew. cbn [py_str].
  destruct (set_modifier_attrs H md (extra_kwargs kwargs)) as [outcome md']. reflexivity.
Qed.

Lemma object_eta (obj : Object) :
  mk_Object (obj_name obj) (obj_type obj) (obj_location obj) (obj_modifiers obj) = obj.
Proof. destruct obj. reflexivity. Qed.

Lemma world_eta (w : World) :
  mk_World (bpy_data_objects w) (bpy_data_materials w) (bpy_data_collections w) (scene w) = w.
Proof. destruct w. reflexivity. Qed.

(** The first modifier of a name splits the stack around it. *)
Lemma modifiers_get_split (mods : list Modifier) (m : string) (md : Modifier) :
  find (fun md' => String.eqb (mod_name md') m) mods = Some md ->
  exists before after,
    mods = (before ++ md :: after)%list
    /\ mod_name md = m
    /\ Forall (fun md' => mod_name md' <> m) before
    /\ modifiers_remove (mod_name md) mods = (before ++ after)%list.
Proof.
  induction mods as [| md' rest IH]; [discriminate |]. cbn [find modifiers_remove].
  destruct (String.eqb_spec (mod_name md') m) as [Heq | Hne].
  - intros [= <-]. exists [], rest. rewrite Heq, String.eqb_refl.
    repeat split; try reflexivity; try assumption; constructor.
  - intros Hfind. destruct (IH Hfind) as (before & after & -> & Hname & Hbefore & Hremove).
    exists (md' :: before), after. rewrite Hname.
    destruct (String.eqb_spec (mod_name md') m) as [Heq | _]; [contradiction |].
    rewrite Hname in Hremove. rewrite Hremove.
    repeat split; try reflexivity; try assumption; constructor; assumption.
Qed.

Lemma modifiers_get_last (mods : list Modifier) (md : Modifier) :
  (forall md', md' ∈ mods -> mod_name md' <> mod_name md) ->
  find (fun md' => String.eqb (mod_name md') (mod_name md)) (mods ++ [md])%list = Some md
  /\ modifiers_remove (mod_name md) (mods ++ [md])%list = mods.
Proof.
  induction mods as [| md' rest IH]; intros Hfresh; cbn [app find modifiers_remove].
  - rewrite String.eqb_refl. split; reflexivity.
  - destruct (String.eqb_spec (mod_name md') (mod_name md)) as [Heq | Hne].
    + exfalso. apply (Hfresh md'); [left | exact Heq].
    + destruct IH as [Hfind Hremove].
      { intros md'' Hin. apply Hfresh. right. exact Hin. }
      rewrite Hfind, Hremove. split; reflexivity.
Qed.

(** X23.  [add_modifier] touches the object it names and nothing else: the
    scene and its flags, hence the enabled commands, and every other object
    are as before, and no object appears or disappears. *)
Theorem add_modifier_touches_one_object (H : Host) (kwargs : list (string * value))
        (w : World) :
  let w' := snd (add_modifier H kwargs w) in
  scene w' = scene w
  /\ enabled_handlers w' = enabled_handlers w
  /\ (forall other, kwarg "object_name" kwargs VNone <> VStr other ->
        bpy_data_objects w' !! other = bpy_data_objects w !! other)
  /\ (forall name, is_Some (bpy_data_objects w' !! name)
                   <-> is_Some (bpy_data_objects w !! name)).
Proof.
  cbv zeta. unfold add_modifier, objects_get.
  destruct (kwarg "object_name" kwargs VNone) as [| ? | ? | ? | name | ? | ? | ?] eqn:Hname;
    try (cbn; repeat split; auto; fail).
  destruct (bpy_data_objects w !! name) as [obj |] eqn:Hobj;
    [| cbn; repeat split; auto].
  destruct (modifiers_new H obj _ _) as [md | e]; [| cbn; repeat split; auto].
  destruct (set_modifier_attrs H md (extra_kwargs kwargs)) as [outcome md'].
  cbn [snd py_str with_modifier scene bpy_data_objects].
  split; [reflexivity |]. split; [reflexivity |]. split.
  - intros other Hother. apply lookup_insert_ne. congruence.
  - intros other. destruct (decide (name = other)) as [<- | Hne].
    + rewrite lookup_insert_eq, Hobj. split; intros _; eexists; reflexivity.
    + rewrite lookup_insert_ne by exact Hne. reflexivity.
Qed.

(** X24.  [add_modifier] does not undo what it did when setting an attribute
    raises: the handler raises, and the modifier it created stays on the
    object, last in its stack. *)
Theorem add_modifier_keeps_modifier_on_failure (H : Host) (kwargs : list (string * value))
        (w w' : World) (name : string) (obj : Object) (md : Modifier) (e : exn) :
  kwarg "object_name" kwargs VNone = VStr name ->
  bpy_data_objects w !! name = Some obj ->
  modifiers_new H obj (kwarg "modifier_type" kwargs VNone)
                (kwarg "modifier_type" kwargs VNone) = Return md ->
  add_modifier H kwargs w = (Raise e, w') ->
  exists md',
    bpy_data_objects w' !! name
    = Some (mk_Object (obj_name obj) (obj_type obj) (obj_location obj)
                      (obj_modifiers obj ++ [md'])%list).
Proof.
  intros Hname Hobj Hnew Hadd.
  rewrite (add_modifier_created H kwargs w name obj md Hname Hobj Hnew) in Hadd.
  injection Hadd as _ <-.
  exists (snd (set_modifier_attrs H md (extra_kwargs kwargs))).
  apply lookup_insert_eq.
Qed.

Lemma add_modifier_keeps_modifier_on_failure_witness :
  let H := int_attributes_host stub_host in
  let kwargs := [("object_name", VStr "Cube"); ("modifier_type", VStr "SUBSURF");
                 ("levels", VStr "two")] in
  let md := mk_Modifier "SUBSURF" "SUBSURF" [("levels", VInt 1)] in
  let e := mk_exn TypeError "expected an int type, not str" in
  let w' := with_modifier default_world "Cube" cube md in
  add_modifier H kwargs default_world = (Raise e, w')
  /\ exists md', bpy_data_objects w' !! "Cube"
                 = Some (mk_Object "Cube" "MESH" origin [md']).
Proof.
  intros H kwargs md e w'.
  assert (Hadd : add_modifier H kwargs default_world = (Raise e, w'))
    by (vm_compute; reflexivity).
  split; [exact Hadd |].
  exact (add_modifier_keeps_modifier_on_failure H kwargs default_world w' "Cube" cube md e
           eq_refl eq_refl eq_refl Hadd).
Defined.

(** X25.  Removing the modifier that [add_modifier] reports undoes the
    addition: when no modifier of the object had that name, [remove_modifier]
    under the reported name succeeds and the world is the one from before the
    addition. *)
Theorem add_then_remove_modifier (H : Host) (kwargs : list (string * value)) (w w' : World)
        (name : string) (obj : Object) (r : value) :
  kwarg "object_name" kwargs VNone = VStr name ->
  bpy_data_objects w !! name = Some obj ->
  add_modifier H kwargs w = (Return r, w') ->
  exists m,
    field "modifier" r = Some (VStr m)
    /\ ((forall md, md ∈ obj_modifiers obj -> mod_name md <> m) ->
        remove_modifier H (VStr name) (VStr m) w'
        = (Return (VDict [("object", VStr name); ("removed", VStr m)]), w)).
Proof.
  intros Hname Hobj Hadd.
  destruct (modifiers_new H obj (kwarg "modifier_type" kwargs VNone)
                          (kwarg "modifier_type" kwargs VNone)) as [md | e] eqn:Hnew.
  2:{ unfold add_modifier, objects_get in Hadd. rewrite Hname, Hobj, Hnew in Hadd.
      discriminate. }
  rewrite (add_modifier_created H kwargs w name obj md Hname Hobj Hnew) in Hadd.
  set (md' := snd (set_modifier_attrs H md (extra_kwargs kwargs))) in *.
  destruct (fst (set_modifier_attrs H md (extra_kwargs kwargs))) as [[] | e];
    [| discriminate].
  injection Hadd as <- <-. exists (mod_name md'). split; [reflexivity |].
  intros Hfresh. destruct (modifiers_get_last (obj_modifiers obj) md' Hfresh)
    as [Hfind Hremove].
  unfold remove_modifier, objects_get, modifiers_get, with_modifier.
  cbn [bpy_data_objects]. rewrite lookup_insert_eq. cbn [obj_modifiers].
  rewrite Hfind. cbn [py_str]. f_equal.
  unfold with_modifiers.
  cbn [bpy_data_objects bpy_data_materials bpy_data_collections scene
       obj_name obj_type obj_location obj_modifiers].
  rewrite Hremove, insert_insert_eq, object_eta, (insert_id _ _ _ Hobj).
  apply world_eta.
Qed.

Lemma add_then_remove_modifier_witness :
  let kwargs := [("object_name", VStr "Cube"); ("modifier_type", VStr "SUBSURF");
                 ("levels", VInt 2)] in
  let md := mk_Modifier "SUBSURF" "SUBSURF" [("levels", VInt 2)] in
  let r := VDict [("object", VStr "Cube"); ("modifier", VStr "SUBSURF");
                  ("type", VStr "SUBSURF")] in
  let w' := with_modifier default_world "Cube" cube md in
  add_modifier stub_host kwargs default_world = (Return r, w')
  /\ remove_modifier stub_host (VStr "Cube") (VStr "SUBSURF") w'
     = (Return (VDict [("object", VStr "Cube"); ("removed", VStr "SUBSURF")]),
        default_world).
Proof.
  intros kwargs md r w'.
  assert (Hadd : add_modifier stub_host kwargs default_world = (Return r, w'))
    by (vm_compute; reflexivity).
  split; [exact Hadd |].
  destruct (add_then_remove_modifier stub_host kwargs default_world w' "Cube" cube r
              eq_refl eq_refl Hadd) as (m & Hm & Hremove).
  injection Hm as <-. apply Hremove. intros md' Hin. inversion Hin.
Defined.

(** X26.  [remove_modifier] removes one modifier or nothing.  When it raises,
    the world is as before.  When it returns, the object has lost the first
    modifier of the given name, the others keep their order, and the scene and
    every other object are as before. *)
Theorem remove_modifier_removes_first_or_nothing (H : Host)
        (object_name modifier_name : value) (w : World) :
  match remove_modifier H object_name modifier_name w with
  | (Raise _, w') => w' = w
  | (Return _, w') =>
      exists name m obj before md after,
        object_name = VStr name /\ modifier_name = VStr m
        /\ bpy_data_objects w !! name = Some obj
        /\ obj_modifiers obj = (before ++ md :: after)%list
        /\ mod_name md = m
        /\ Forall (fun md' => mod_name md' <> m) before
        /\ bpy_data_objects w' !! name
           = Some (mk_Object (obj_name obj) (obj_type obj) (obj_location obj)
                             (before ++ after)%list)
        /\ scene w' = scene w
        /\ forall other, other <> name ->
             bpy_data_objects w' !! other = bpy_data_objects w !! other
  end.
Proof.
  unfold remove_modifier, objects_get, modifiers_get.
  destruct object_name as [| ? | ? | ? | name | ? | ? | ?]; try reflexivity.
  destruct (bpy_data_objects w !! name) as [obj |] eqn:Hobj; [| reflexivity].
  destruct modifier_name as [| ? | ? | ? | m | ? | ? | ?]; try reflexivity.
  destruct (find _ (obj_modifiers obj)) as [md |] eqn:Hfind; [| reflexivity].
  destruct (modifiers_get_split _ _ _ Hfind)
    as (before & after & Hsplit & Hname & Hbefore & Hremove).
  exists name, m, obj, before, md, after. rewrite Hremove. cbn [py_str].
  unfold with_modifiers. cbn [bpy_data_objects scene].
  repeat split; try assumption.
  - apply lookup_insert_eq.
  - intros other Hother. apply lookup_insert_ne. congruence.
Qed.

(** X27.  A deleted object is gone: [delete_object] on an object that exists
    returns its name, after which the object is no longer in
    [bpy.data.objects], the scene no longer lists it, and a second
    [delete_object] on the name raises [Object not found] and changes
    nothing. *)
Theorem delete_object_then_not_found (H : Host) (name : string) (obj : Object) (w : World) :
  bpy_data_objects w !! name = Some obj ->
  let w' := snd (delete_object H (VStr name) w) in
  fst (delete_object H (VStr name) w) = Return (VDict [("deleted", VStr name)])
  /\ bpy_data_objects w' !! name = None
  /\ (name ∉ scene_object_names (scene w'))
  /\ delete_object H (VStr name) w'
     = (Raise (mk_exn ValueError ("Object not found: " +:+ name)), w').
Proof.
  intros Hobj. cbv zeta.
  assert (Hdel : delete_object H (VStr name) w
                 = (Return (VDict [("deleted", VStr name)]), objects_remove w name)).
  { unfold delete_object, objects_get. rewrite Hobj. reflexivity. }
  rewrite Hdel. cbn [fst snd].
  assert (Hgone : bpy_data_objects (objects_remove w name) !! name = None)
    by apply lookup_delete_eq.
  split; [reflexivity |]. split; [exact Hgone |]. split.
  - unfold objects_remove. cbn [scene scene_object_names].
    intros Hin. apply list_elem_of_filter in Hin as [Hne _].
    rewrite String.eqb_refl in Hne. exact Hne.
  - unfold delete_object, objects_get. rewrite Hgone. reflexivity.
Qed.

Lemma delete_object_then_not_found_witness :
  let w' := snd (delete_object stub_host (VStr "Cube") default_world) in
  bpy_data_objects default_world !! "Cube" = Some cube
  /\ delete_object stub_host (VStr "Cube") w'
     = (Raise (mk_exn ValueError "Object not found: Cube"), w')
  /\ scene_objects w' = [].
Proof.
  intros w'. split; [reflexivity |]. split; [| vm_compute; reflexivity].
  exact (proj2 (proj2 (proj2 (delete_object_then_not_found stub_host "Cube" cube
                                                           default_world eq_refl)))).
Defined.

(** *** [poll_rodin_job_status] *)

(** A call whose first keyword the method does not take raises at once. *)
Lemma bind_signature_first_keyword (qual : string) (sg : signature) (key : string)
      (v : value) (rest : list (string * value)) :
  String.eqb key "self" = false ->
  existsb (String.eqb key) (sig_required sg ++ sig_optional sg) || sig_var_keyword sg = false ->
  bind_signature qual sg ((key, v) :: rest)
  = Raise (mk_exn TypeError (qual +:+ "() got an unexpected keyword argument " +:+ quote key)).
Proof.
  intros Hself Hnot. unfold bind_signature. cbn [check_keywords_of].
  rewrite Hself, Hnot. reflexivity.
Qed.

(** X28.  Which keywords [poll_rodin_job_status] takes depends on the mode of
    the scene: no set of keywords is accepted in both modes.  In at least one
    of them the call raises [TypeError] while binding, before any request is
    sent. *)
Theorem poll_keywords_depend_on_mode (H : Host) (kwargs : list (string * value))
        (main fal : World) :
  blendermcp_hyper3d_mode (scene main) = "MAIN_SITE" ->
  blendermcp_hyper3d_mode (scene fal) = "FAL_AI" ->
  (exists e, exc_type e = TypeError
             /\ forall P, poll_rodin_job_status H P kwargs main = Raise e)
  \/ (exists e, exc_type e = TypeError
                /\ forall P, poll_rodin_job_status H P kwargs fal = Raise e).
Proof.
  intros Hmain Hfal. unfold poll_rodin_job_status. rewrite Hmain, Hfal.
  change (String.eqb "MAIN_SITE" "MAIN_SITE") with true.
  change (String.eqb "FAL_AI" "MAIN_SITE") with false.
  change (String.eqb "FAL_AI" "FAL_AI") with true. cbv iota.
  destruct (bind_signature "BlenderMCPServer.poll_rodin_job_status_main_site"
                           main_site_signature kwargs) as [[] | e] eqn:Hbind.
  2:{ left. exists e. split; [exact (bind_signature_TypeError _ _ _ _ Hbind) |].
      intros P. reflexivity. }
  right. destruct kwargs as [| [key v] rest]; [discriminate |].
  destruct (String.eqb key "self") eqn:Hself.
  { unfold bind_signature in Hbind. cbn [check_keywords_of] in Hbind.
    rewrite Hself in Hbind. discriminate. }
  destruct (String.eqb key "subscription_key") eqn:Hkey.
  2:{ rewrite (bind_signature_first_keyword _ main_site_signature key v rest Hself)
        in Hbind; [discriminate |].
      cbn. rewrite Hkey. reflexivity. }
  apply String.eqb_eq in Hkey. subst key.
  eexists. split; [| intros P;
                     rewrite (bind_signature_first_keyword _ fal_ai_signature
                                "subscription_key" v rest eq_refl eq_refl); reflexivity].
  reflexivity.
Qed.

Lemma poll_keywords_depend_on_mode_witness :
  let kwargs := [("subscription_key", VStr "k1")] in
  let main := default_world in
  let fal := with_mode "FAL_AI" default_world in
  blendermcp_hyper3d_mode (scene main) = "MAIN_SITE"
  /\ blendermcp_hyper3d_mode (scene fal) = "FAL_AI"
  /\ ((exists e, exc_type e = TypeError
                 /\ forall P, poll_rodin_job_status stub_host P kwargs main = Raise e)
      \/ (exists e, exc_type e = TypeError
                    /\ forall P, poll_rodin_job_status stub_host P kwargs fal = Raise e)).
Proof.
  intros kwargs main fal. split; [reflexivity |]. split; [reflexivity |].
  exact (poll_keywords_depend_on_mode stub_host kwargs main fal eq_refl eq_refl).
Defined.

Lemma status_of_each_statuses (jobs statuses : list value) :
  Forall2 (fun job status => field "status" job = Some status) jobs statuses ->
  status_of_each jobs = Return statuses.
Proof.
  induction 1 as [| job status jobs statuses Hjob _ IH]; [reflexivity |].
  cbn [status_of_each]. unfold subscript. destruct job; try discriminate.
  cbn [field] in Hjob. rewrite Hjob. cbn. rewrite IH. reflexivity.
Qed.

(** X29.  In the main-site mode a poll returns the [status] of each job of the
    reply, one per job and in the order of the reply, whatever the status code
    of the reply is. *)
Theorem poll_main_site_lists_statuses (H : Host) (P : Rodin) (subscription_key : value)
        (w : World) (response : http_response) (data : value) (jobs statuses : list value) :
  blendermcp_hyper3d_mode (scene w) = "MAIN_SITE" ->
  requests_post_json P "https://hyperhuman.deemos.com/api/v2/status"
                     ("Bearer " +:+ blendermcp_hyper3d_api_key (scene w))
                     (VDict [("subscription_key", subscription_key)])
  = Return response ->
  response_json response = Return data ->
  field "jobs" data = Some (VList jobs) ->
  Forall2 (fun job status => field "status" job = Some status) jobs statuses ->
  poll_rodin_job_status H P [("subscription_key", subscription_key)] w
  = Return (VDict [("status_list", VList statuses)]).
Proof.
  intros Hmode Hpost Hjson Hjobs Hstatuses. unfold poll_rodin_job_status.
  rewrite Hmode. change (String.eqb "MAIN_SITE" "MAIN_SITE") with true. cbv iota.
  change (bind_signature _ main_site_signature [("subscription_key", subscription_key)])
    with (Return tt : result unit).
  change (kwarg "subscription_key" [("subscription_key", subscription_key)] VNone)
    with subscription_key.
  unfold poll_rodin_job_status_main_site. rewrite Hpost. cbn. rewrite Hjson. cbn.
  destruct data; try discriminate. cbn [field] in Hjobs. unfold subscript.
  rewrite Hjobs. cbn. rewrite (status_of_each_statuses _ _ Hstatuses). reflexivity.
Qed.

Lemma poll_main_site_lists_statuses_witness :
  let jobs := [VDict [("uuid", VStr "a"); ("status", VStr "Done")];
               VDict [("uuid", VStr "b"); ("status", VStr "Generating")]] in
  let P := replying 404 (VDict [("jobs", VList jobs)]) in
  poll_rodin_job_status stub_host P [("subscription_key", VStr "k1")] default_world
  = Return (VDict [("status_list", VList [VStr "Done"; VStr "Generating"])]).
Proof.
  intros jobs P.
  apply (poll_main_site_lists_statuses stub_host P (VStr "k1") default_world
           (mk_response 404 (Return (VDict [("jobs", VList jobs)])))
           (VDict [("jobs", VList jobs)]) jobs [VStr "Done"; VStr "Generating"]);
    try reflexivity.
  repeat constructor.
Defined.

(** *** [search_polyhaven_assets] *)

Lemma dict_set_fresh (key : string) (v : value) (entries : list (string * value)) :
  key ∉ map fst entries ->
  dict_set key v entries = (entries ++ [(key, v)])%list.
Proof.
  induction entries as [| [k v0] rest IH]; intros Hfresh; [reflexivity |].
  cbn [dict_set app]. destruct (String.eqb_spec k key) as [-> | _].
  - exfalso. apply Hfresh. left.
  - rewrite IH; [reflexivity |]. intros Hin. apply Hfresh. right. exact Hin.
Qed.

Lemma limit_loop_take (items : list (string * value)) :
  forall i limited_assets,
    NoDup (map fst limited_assets ++ map fst items)%list ->
    limit_loop i items limited_assets = (limited_assets ++ take (20 - i) items)%list.
Proof.
  induction items as [| [key v] rest IH]; intros i acc Hnodup.
  - rewrite take_nil, app_nil_r. reflexivity.
  - cbn [limit_loop]. destruct (Nat.leb 20 i) eqn:Hle.
    + apply Nat.leb_le in Hle. replace (20 - i) with 0 by lia.
      rewrite app_nil_r. reflexivity.
    + apply Nat.leb_gt in Hle. replace (20 - i) with (S (20 - S i)) by lia.
      cbn [map fst] in Hnodup. apply NoDup_app in Hnodup as (Hacc & Hdisjoint & Hitems).
      rewrite dict_set_fresh.
      2:{ intros Hin. apply (Hdisjoint key Hin). left. }
      rewrite IH.
      * cbn [take]. rewrite <- app_assoc. reflexivity.
      * rewrite map_app. cbn [map fst]. rewrite <- app_assoc. cbn [app].
        apply NoDup_app. split; [exact Hacc |]. split; [exact Hdisjoint | exact Hitems].
Qed.

(** X30.  [search_polyhaven_assets] returns the first twenty assets of the
    catalogue, in its order, and counts all of them: [total_count] is the size
    of the catalogue and [returned_count] is that size or twenty, whichever is
    smaller. *)
Theorem search_returns_first_twenty (H : Host) (asset_type categories : value)
        (response : http_response) (items : list (string * value)) :
  truthy asset_type && negb (eq_str asset_type "all")
  && negb (in_strs asset_type ["hdris"; "textures"; "models"]) = false ->
  (forall params, requests_get H "https://api.polyhaven.com/assets" params = Return response) ->
  status_code response = 200%Z ->
  response_json response = Return (VDict items) ->
  NoDup (map fst items) ->
  search_polyhaven_assets H asset_type categories
  = Return (VDict [("assets", VDict (take 20 items));
                   ("total_count", VInt (Z.of_nat (length items)));
                   ("returned_count", VInt (Z.of_nat (Nat.min 20 (length items))))]).
Proof.
  intros Hvalid Hget Hcode Hjson Hnodup. unfold search_polyhaven_assets.
  rewrite Hvalid, Hget. cbn. rewrite Hcode. cbn. rewrite Hjson. cbn.
  rewrite (limit_loop_take items 0 [] Hnodup). cbn [app]. rewrite Nat.sub_0_r.
  rewrite length_take. reflexivity.
Qed.

Lemma search_returns_first_twenty_witness :
  let catalogue := numbered_assets 21 in
  let H := catalogue_host (VDict catalogue) in
  NoDup (map fst catalogue)
  /\ search_polyhaven_assets H (VStr "models") VNone
     = Return (VDict [("assets", VDict (numbered_assets 20));
                      ("total_count", VInt 21);
                      ("returned_count", VInt 20)]).
Proof.
  intros catalogue H.
  assert (Hnodup : NoDup (map fst catalogue))
    by (refine (bool_decide_unpack _ _); vm_compute; exact I).
  split; [exact Hnodup |].
  exact (search_returns_first_twenty H (VStr "models") VNone
           (mk_response 200 (Return (VDict catalogue))) catalogue
           eq_refl (fun _ => eq_refl) eq_refl eq_refl Hnodup).
Defined.
